(** * go-vercel: the cron stub and the mutual-fund NAV handler

    A shallow embedding of the two serverless handlers of the repository
    (package [handler], function [Cron]; package [mutualfunds], function
    [Handler] and its helpers) together with the parts of the Go standard
    library they call: [strconv.Atoi], [time.Parse] / [time.Format] for the
    layout ["02-01-2006"], the comparison methods of [time.Time], the
    [http.ResponseWriter] protocol and [encoding/json].

    Go strings are byte sequences; they are modelled by [string] (a list of
    8-bit characters).  Go's [int] is the 64-bit integer of the deployment
    platform, modelled by [Z] with the range written out where the code
    depends on it. *)

From Stdlib Require Import ZArith Strings.String Strings.Ascii List Bool Lia.
From stdpp Require Import base option list strings gmap pretty.

Import ListNotations.
Open Scope string_scope.
Open Scope Z_scope.

(** ** Bytes and decimal digits *)

Definition byteZ (c : ascii) : Z := Z.of_N (N_of_ascii c).

Definition isDigit (c : ascii) : bool := (48 <=? byteZ c) && (byteZ c <=? 57).

Definition digitVal (c : ascii) : Z := byteZ c - 48.

Definition newline : string := String (ascii_of_nat 10) EmptyString.

Fixpoint allDigits (s : string) : bool :=
  match s with
  | EmptyString => true
  | String c r => isDigit c && allDigits r
  end.

(** Value of a digit string read left to right: [n = n*10 + int(ch)]. *)
Fixpoint digitsVal (acc : Z) (s : string) : Z :=
  match s with
  | EmptyString => acc
  | String c r => digitsVal (acc * 10 + digitVal c) r
  end.

Fixpoint repeatChar (c : ascii) (n : nat) : string :=
  match n with
  | O => EmptyString
  | S k => String c (repeatChar c k)
  end.

Fixpoint joinWith (sep : string) (l : list string) : string :=
  match l with
  | [] => ""
  | [x] => x
  | x :: r => x ++ sep ++ joinWith sep r
  end.

(** ** strconv *)

Module strconv.

Definition minInt : Z := - 2 ^ 63.
Definition maxInt : Z := 2 ^ 63 - 1.

(** [strconv.Atoi]: an optional sign, then one or more decimal digits and
    nothing else; the value has to fit the 64-bit [int].  [None] stands for
    a non-nil error (syntax or range). *)
Definition Atoi (s : string) : option Z :=
  let '(neg, digits) :=
    match s with
    | String "-" r => (true, r)
    | String "+" r => (false, r)
    | _ => (false, s)
    end in
  match digits with
  | EmptyString => None
  | _ =>
    if allDigits digits then
      let n := digitsVal 0 digits in
      let v := if neg then - n else n in
      if (minInt <=? v) && (v <=? maxInt) then Some v else None
    else None
  end.

End strconv.

(** ** time *)

Module time.

(** An instant: seconds and nanoseconds since January 1, year 1, 00:00:00
    UTC, which is what [Time.sec()] and [Time.nsec()] return.  The zero
    value [time.Time{}] is that very instant. *)
Record Time : Type := mkTime { sec : Z; nsec : Z }.

Definition zero : Time := mkTime 0 0.

Definition IsZero (t : Time) : bool := (sec t =? 0) && (nsec t =? 0).

Definition After (t u : Time) : bool :=
  (sec t >? sec u) || ((sec t =? sec u) && (nsec t >? nsec u)).

Definition Before (t u : Time) : bool :=
  (sec t <? sec u) || ((sec t =? sec u) && (nsec t <? nsec u)).

Definition Equal (t u : Time) : bool :=
  (sec t =? sec u) && (nsec t =? nsec u).

Definition secondsPerDay : Z := 86400.

Definition isLeap (year : Z) : bool :=
  (year mod 4 =? 0) && (negb (year mod 100 =? 0) || (year mod 400 =? 0)).

(** [daysBefore[m]]: days of a non-leap year before month [m+1]. *)
Definition daysBefore (m : Z) : Z :=
  nth (Z.to_nat m) [0; 31; 59; 90; 120; 151; 181; 212; 243; 273; 304; 334; 365] 0.

Definition daysIn (month year : Z) : Z :=
  if (month =? 2) && isLeap year then 29
  else daysBefore month - daysBefore (month - 1).

(** Days from January 1 of year 1 to January 1 of [year] in the proleptic
    Gregorian calendar (negative for year 0). *)
Definition daysSinceEpoch (year : Z) : Z :=
  let y := year - 1 in
  365 * y + y / 4 - y / 100 + y / 400.

(** [time.Date(year, month, day, 0, 0, 0, 0, time.UTC)] for a day that
    exists in the calendar. *)
Definition Date (year month day : Z) : Time :=
  let d := daysSinceEpoch year + daysBefore (month - 1) in
  let d := if isLeap year && (3 <=? month) then d + 1 else d in
  let d := d + (day - 1) in
  mkTime (d * secondsPerDay) 0.

(** The reverse computation, [absDate]: first the year and the day of the
    year of a day count, by cutting off 400-, 100-, 4- and 1-year cycles. *)
Definition yearDay (d : Z) : Z * Z :=
  let n := d / 146097 in
  let y := 400 * n in
  let d := d - 146097 * n in
  let n := d / 36524 in
  let n := n - Z.shiftr n 2 in
  let y := y + 100 * n in
  let d := d - 36524 * n in
  let n := d / 1461 in
  let y := y + 4 * n in
  let d := d - 1461 * n in
  let n := d / 365 in
  let n := n - Z.shiftr n 2 in
  let y := y + n in
  let d := d - 365 * n in
  (y + 1, d).

(** Then the month and the day of the month of a day of the year: the
    month is estimated as if every month had 31 days and adjusted. *)
Definition monthDay (leap : bool) (yday : Z) : Z * Z :=
  if leap && (yday =? 31 + 29 - 1) then (2, 29)
  else
    let day := if leap && (yday >? 31 + 29 - 1) then yday - 1 else yday in
    let month := day / 31 in
    let fin := daysBefore (month + 1) in
    let '(month, begin) :=
      if day >=? fin then (month + 1, fin) else (month, daysBefore month) in
    (month + 1, day - begin + 1).

(** [Time.date] of a UTC time: year, month and day. *)
Definition absDate (t : Time) : Z * Z * Z :=
  let '(year, yday) := yearDay (sec t / secondsPerDay) in
  let '(month, day) := monthDay (isLeap year) yday in
  (year, month, day).

(** The pieces a layout is cut into by [nextStdChunk].  Only the pieces that
    occur in the layout of this program are modelled. *)
Inductive chunk : Type :=
| Lit (c : ascii)      (* a literal byte other than a space *)
| stdZeroDay           (* "02"   *)
| stdZeroMonth         (* "01"   *)
| stdLongYear.         (* "2006" *)

(** The layout string ["02-01-2006"] of the program, as chunks. *)
Definition layout_02_01_2006 : list chunk :=
  [stdZeroDay; Lit "-"; stdZeroMonth; Lit "-"; stdLongYear].

(** [getnum(s, fixed = true)]: exactly two decimal digits. *)
Definition getnum (s : string) : option (Z * string) :=
  match s with
  | String a (String b r) =>
    if isDigit a && isDigit b then Some (digitVal a * 10 + digitVal b, r) else None
  | _ => None
  end.

(** The four-digit year: [len(value) >= 4], then [atoi(value[0:4])]. *)
Definition getyear (s : string) : option (Z * string) :=
  match s with
  | String a (String b (String c (String d r))) =>
    let p := String a (String b (String c (String d EmptyString))) in
    if allDigits p then Some (digitsVal 0 p, r) else None
  | _ => None
  end.

(** Fields collected while parsing; [time.Parse] starts from
    [year = 0], [month = -1], [day = -1]. *)
Record fields : Type := mkFields { f_year : Z; f_month : Z; f_day : Z }.

Fixpoint parseChunks (layout : list chunk) (value : string) (f : fields)
  : option fields :=
  match layout with
  | [] => if String.eqb value "" then Some f else None      (* extra text *)
  | Lit c :: l =>
    match value with
    | String c' v => if Ascii.eqb c c' then parseChunks l v f else None
    | EmptyString => None
    end
  | stdZeroDay :: l =>
    '(n, v) ← getnum value;
    parseChunks l v (mkFields (f_year f) (f_month f) n)
  | stdZeroMonth :: l =>
    '(n, v) ← getnum value;
    if (n <=? 0) || (12 <? n) then None                     (* month out of range *)
    else parseChunks l v (mkFields (f_year f) n (f_day f))
  | stdLongYear :: l =>
    '(n, v) ← getyear value;
    parseChunks l v (mkFields n (f_month f) (f_day f))
  end.

(** [time.Parse(layout, value)]; [None] stands for a non-nil error. *)
Definition Parse (layout : list chunk) (value : string) : option Time :=
  f ← parseChunks layout value (mkFields 0 (-1) (-1));
  let month := if f_month f <? 0 then 1 else f_month f in
  let day := if f_day f <? 0 then 1 else f_day f in
  if (day <? 1) || (day >? daysIn month (f_year f)) then None   (* day out of range *)
  else Some (Date (f_year f) month day).

(** The decimal digit [0 <= n <= 9] as a byte. *)
Definition digitChar (n : Z) : ascii := ascii_of_N (Z.to_N (48 + n)).

(** [appendInt(b, x, width)]: the decimal digits of [x], zero-padded to
    [width]; fields of width 2 and 4 that fit are read off the digit
    tables. *)
Definition appendInt (x width : Z) : string :=
  let u := Z.abs x in
  (if x <? 0 then "-" else "")
  ++ (if (width =? 2) && (u <? 100) then
        String (digitChar (u / 10)) (String (digitChar (u mod 10)) "")
      else if (width =? 4) && (u <? 10000) then
        String (digitChar (u / 100 / 10)) (String (digitChar (u / 100 mod 10))
          (String (digitChar (u mod 100 / 10)) (String (digitChar (u mod 100 mod 10)) "")))
      else
        let digits := pretty u in
        repeatChar "0" (Z.to_nat (width - Z.of_nat (String.length digits))) ++ digits).

Definition formatChunk (t : Time) (c : chunk) : string :=
  let '(year, month, day) := absDate t in
  match c with
  | Lit c => String c EmptyString
  | stdZeroDay => appendInt day 2
  | stdZeroMonth => appendInt month 2
  | stdLongYear => appendInt year 4
  end.

(** [t.Format(layout)] of a UTC time. *)
Definition Format (t : Time) (layout : list chunk) : string :=
  String.concat "" (map (formatChunk t) layout).

End time.

(** ** encoding/json *)

Module json.

#[local] Set Warnings "-register-all".

(** What the encoder writes, before it is laid out as bytes.  An object
    keeps its members in the order they are written: struct fields in
    declaration order, map keys sorted. *)
Inductive Value : Type :=
| Null
| Str (s : string)
| Num (n : Z)
| Arr (l : list Value)
| Obj (members : list (string * Value)).

Definition hexDigit (n : Z) : ascii :=
  nth (Z.to_nat n)
    ["0"; "1"; "2"; "3"; "4"; "5"; "6"; "7"; "8"; "9"; "a"; "b"; "c"; "d"; "e"; "f"]%char
    "0"%char.

(** [htmlSafeSet]: the bytes below 0x80 that are copied as they are. *)
Definition htmlSafe (b : Z) : bool :=
  (32 <=? b) && (b <? 128)
  && negb ((b =? 34) || (b =? 92) || (b =? 60) || (b =? 62) || (b =? 38)).

(** The escape written for a byte below 0x80 that is not safe. *)
Definition escapeByte (c : ascii) : string :=
  let b := byteZ c in
  if (b =? 92) || (b =? 34) then String "\" (String c "")
  else if b =? 8 then "\b"
  else if b =? 12 then "\f"
  else if b =? 10 then "\n"
  else if b =? 13 then "\r"
  else if b =? 9 then "\t"
  else "\u00" ++ String (hexDigit (Z.shiftr b 4)) (String (hexDigit (Z.land b 15)) "").

Definition isCont (c : ascii) : bool := (128 <=? byteZ c) && (byteZ c <=? 191).

Definition between (lo hi : Z) (c : ascii) : bool := (lo <=? byteZ c) && (byteZ c <=? hi).

(** [utf8.DecodeRuneInString] as far as the encoder looks at it: the number
    of bytes of the well-formed UTF-8 sequence [s] starts with, or [1] with
    [false] for an ill-formed one ([RuneError] of size 1). *)
Definition decodeSize (s : string) : nat * bool :=
  match s with
  | String a (String b r) =>
    let x := byteZ a in
    if (194 <=? x) && (x <=? 223) then
      if isCont b then (2%nat, true) else (1%nat, false)
    else
      match r with
      | String c r' =>
        let second3 :=
          if x =? 224 then between 160 191 b
          else if x =? 237 then between 128 159 b
          else isCont b in
        if (224 <=? x) && (x <=? 239) then
          if second3 && isCont c then (3%nat, true) else (1%nat, false)
        else
          match r' with
          | String d _ =>
            let second4 :=
              if x =? 240 then between 144 191 b
              else if x =? 244 then between 128 143 b
              else isCont b in
            if (240 <=? x) && (x <=? 244) && second4 && isCont c && isCont d
            then (4%nat, true) else (1%nat, false)
          | EmptyString => (1%nat, false)
          end
      | EmptyString => (1%nat, false)
      end
  | _ => (1%nat, false)
  end.

(** U+2028 and U+2029 (E2 80 A8, E2 80 A9) are always escaped. *)
Definition lineSeparator (s : string) : option ascii :=
  match s with
  | String a (String b (String c _)) =>
    if (byteZ a =? 226) && (byteZ b =? 128) && ((byteZ c =? 168) || (byteZ c =? 169))
    then Some (hexDigit (Z.land (byteZ c) 15)) else None
  | _ => None
  end.

(** The body of [appendString] with [escapeHTML = true].  [copy] counts the
    bytes of a well-formed multi-byte sequence still to be copied, [skip]
    those of an escaped one still to be passed over. *)
Fixpoint escape (copy skip : nat) (s : string) : string :=
  match s with
  | EmptyString => EmptyString
  | String c r =>
    match copy, skip with
    | S k, _ => String c (escape k skip r)
    | O, S k => escape O k r
    | O, O =>
      if byteZ c <? 128 then
        if htmlSafe (byteZ c) then String c (escape O O r)
        else escapeByte c ++ escape O O r
      else
        match decodeSize s with
        | (_, false) => "\ufffd" ++ escape O O r
        | (n, true) =>
          match lineSeparator s with
          | Some h => "\u202" ++ String h (escape O 2 r)
          | None => String c (escape (Nat.pred n) O r)
          end
        end
    end
  end.

Definition quote : string := String (ascii_of_nat 34) EmptyString.

Definition encodeString (s : string) : string := quote ++ escape O O s ++ quote.

(** The bytes of a value (compact, as [Marshal] and [Encoder] lay it out). *)
Fixpoint render (v : Value) : string :=
  match v with
  | Null => "null"
  | Str s => encodeString s
  | Num n => pretty n
  | Arr l => "[" ++ joinWith "," (map render l) ++ "]"
  | Obj ms =>
    "{" ++ joinWith "," (map (fun m => encodeString (fst m) ++ ":" ++ render (snd m)) ms) ++ "}"
  end.

(** Keys of the members of an object. *)
Definition keys (v : Value) : list string :=
  match v with
  | Obj ms => map fst ms
  | _ => []
  end.

(** A [map[string]string] with a single entry. *)
Definition singleton (k v : string) : Value := Obj [(k, Str v)].

End json.

(** ** net/url, net/http and os *)

Module url.

(** [url.Values] is a [map[string][]string]; [Values.Get] returns the first
    value stored under the key and the empty string when there is none. *)
Definition Values_Get (v : gmap string (list string)) (key : string) : string :=
  match v !! key with
  | Some (x :: _) => x
  | _ => ""
  end.

End url.

Module http.

Definition StatusOK : Z := 200.
Definition StatusBadRequest : Z := 400.
Definition StatusUnauthorized : Z := 401.
Definition StatusInternalServerError : Z := 500.

(** [http.Header] is a [map[string][]string]; [Header.Get] returns the
    first value stored under the key and the empty string when there is
    none.  The keys of a request are in canonical form, as is the one key
    the program asks for. *)
Definition Header_Get (h : gmap string (list string)) (key : string) : string :=
  match h !! key with
  | Some (v :: _) => v
  | _ => ""
  end.

(** The parts of [*http.Request] the handlers read: the method (never
    looked at), the headers and [r.URL.Query()]. *)
Record Request : Type := mkRequest {
  Method : string;
  Header : gmap string (list string);
  Query : gmap string (list string)
}.

(** An [http.ResponseWriter]: the header map, the status code once it has
    been written, and the body written so far. *)
Record ResponseWriter : Type := mkWriter {
  header : gmap string (list string);
  status : option Z;
  body : string
}.

Definition newWriter : ResponseWriter := mkWriter ∅ None "".

(** [w.Header().Set(key, value)] *)
Definition Set_ (key value : string) (w : ResponseWriter) : ResponseWriter :=
  mkWriter (<[key := [value]]> (header w)) (status w) (body w).

(** [w.WriteHeader(code)]: only the first call counts. *)
Definition WriteHeader (code : Z) (w : ResponseWriter) : ResponseWriter :=
  match status w with
  | Some _ => w
  | None => mkWriter (header w) (Some code) (body w)
  end.

(** [w.Write(b)]: writes the header with [StatusOK] first when no status
    has been written yet. *)
Definition Write (b : string) (w : ResponseWriter) : ResponseWriter :=
  let w := WriteHeader StatusOK w in
  mkWriter (header w) (status w) (body w ++ b).

(** [http.Error(w, error, code)]: a plain-text reply, the message followed
    by a newline ([fmt.Fprintln]). *)
Definition Error (w : ResponseWriter) (error : string) (code : Z) : ResponseWriter :=
  let w := Set_ "Content-Type" "text/plain; charset=utf-8" w in
  let w := Set_ "X-Content-Type-Options" "nosniff" w in
  let w := WriteHeader code w in
  Write (error ++ newline) w.

(** [json.NewEncoder(w).Encode(v)]: the value, then a newline. *)
Definition Encode (v : json.Value) (w : ResponseWriter) : ResponseWriter :=
  Write (json.render v ++ newline) w.

End http.

(** ** Data model of package mutualfunds *)

(** The anonymous struct of [Fund.Meta] and [Response.Meta]. *)
Module Meta.
Record t : Type := mk {
  FundHouse : string;
  SchemeType : string;
  SchemeCategory : string;
  SchemeCode : Z;
  SchemeName : string
}.

(** The zero value [struct{...}{}]. *)
Definition zero : t := mk "" "" "" 0 "".

(** [==] on the struct: field by field. *)
Definition eqb (a b : t) : bool :=
  String.eqb (FundHouse a) (FundHouse b)
  && String.eqb (SchemeType a) (SchemeType b)
  && String.eqb (SchemeCategory a) (SchemeCategory b)
  && (SchemeCode a =? SchemeCode b)
  && String.eqb (SchemeName a) (SchemeName b).

Definition toJSON (m : t) : json.Value :=
  json.Obj [("fund_house", json.Str (FundHouse m));
            ("scheme_type", json.Str (SchemeType m));
            ("scheme_category", json.Str (SchemeCategory m));
            ("scheme_code", json.Num (SchemeCode m));
            ("scheme_name", json.Str (SchemeName m))].
End Meta.

(** The anonymous struct of the elements of [Fund.Data]. *)
Module Item.
Record t : Type := mk { Date : string; Nav : string }.
End Item.

Module Fund.
Record t : Type := mk { Meta : Meta.t; Data : list Item.t }.
End Fund.

Module DataPoint.
Record t : Type := mk { Date : string; Nav : string }.

Definition toJSON (p : t) : json.Value :=
  json.Obj [("date", json.Str (Date p)); ("nav", json.Str (Nav p))].
End DataPoint.

Module Response.
Record t : Type := mk { Meta : Meta.t; Period : string; Data : list DataPoint.t }.

(** The struct encoder: fields in declaration order; [Period] is tagged
    [omitempty] and left out when it is the empty string.  [Data] is only
    ever built by [filterData], whose slice is [nil] exactly when it holds
    no element, and a [nil] slice is written as [null]. *)
Definition toJSON (r : t) : json.Value :=
  json.Obj
    ([("meta", Meta.toJSON (Meta r))]
     ++ (if String.eqb (Period r) "" then [] else [("period", json.Str (Period r))])
     ++ [("data", match Data r with
                  | [] => json.Null
                  | l => json.Arr (map DataPoint.toJSON l)
                  end)]).

(** [json.Marshal(response)]; it cannot fail on this type. *)
Definition Marshal (r : t) : string := json.render (toJSON r).
End Response.

(** ** The environment of a request *)

(** What one outbound [http.Get] followed by the JSON decoding comes to. *)
Inductive Upstream : Type :=
| TransportError (msg : string)
| DecodeError (msg : string)
| Decoded (fund : Fund.t).

(** The clock, the process environment and the upstream service. *)
Record World : Type := mkWorld {
  Now : time.Time;
  Environ : gmap string string;
  Remote : string -> Upstream
}.

(** [os.Getenv]: the empty string for a variable that is not set. *)
Definition Getenv (wd : World) (key : string) : string :=
  default "" (Environ wd !! key).

(** A value or a non-nil [error] with its message. *)
Inductive result (A : Type) : Type :=
| ok (a : A)
| err (msg : string).
Arguments ok {A} a.
Arguments err {A} msg.

(** ** package handler: Cron *)

(** The writer accepts every write, so the branch taken when [Encode]
    fails is never entered and is left out. *)
Definition Cron (wd : World) (w : http.ResponseWriter) (r : http.Request)
  : http.ResponseWriter :=
  let authHeader := http.Header_Get (http.Header r) "Authorization" in
  let cronSecret := Getenv wd "CRON_SECRET" in
  if negb (String.eqb authHeader ("Bearer " ++ cronSecret)) then
    http.Error w "Unauthorized" http.StatusUnauthorized
  else
    let response := json.singleton "data" "Hello, Cron!" in
    let w := http.Set_ "Content-Type" "application/json" w in
    http.Encode response w.

(** ** package mutualfunds *)

Definition baseURL : string := "https://api.mfapi.in/mf/".

Definition isValidInteger (value : string) : bool :=
  match strconv.Atoi value with
  | Some _ => true
  | None => false
  end.

(** The result and the URLs requested on the way. *)
Definition fetchFundData (wd : World) (mutualFundID : string)
  : result Fund.t * list string :=
  let url := baseURL ++ mutualFundID in
  match Remote wd url with
  | TransportError e => (err ("error fetching data from API: " ++ e), [url])
  | DecodeError e => (err ("error decoding API response: " ++ e), [url])
  | Decoded fund => (ok fund, [url])
  end.

Definition parseDates (startDate endDate : string) : result (time.Time * time.Time) :=
  match time.Parse time.layout_02_01_2006 startDate with
  | None => err "invalid start date format. use dd-mm-yyyy"
  | Some start =>
    match time.Parse time.layout_02_01_2006 endDate with
    | None => err "invalid end date format. use dd-mm-yyyy"
    | Some end_ => ok (start, end_)
    end
  end.

(** [now] is the value [time.Now()] returns when it is called. *)
Definition validateAndParseDates (now : time.Time) (startDate endDate : string)
  : result (time.Time * time.Time) :=
  if negb (String.eqb startDate "") && negb (String.eqb endDate "") then
    match parseDates startDate endDate with
    | err e => err e
    | ok (start, end_) =>
      if time.After end_ now then err "end date cannot be in the future"
      else if time.After start end_ then err "start date cannot be after end date"
      else ok (start, end_)
    end
  else if String.eqb startDate "" && String.eqb endDate "" then
    ok (time.zero, time.zero)
  else
    err "both start and end dates are required in the format dd-mm-yyyy".

(** Whether the loop of [filterData] appends an item whose date parsed. *)
Definition inRange (start end_ date : time.Time) : bool :=
  (time.IsZero start && time.IsZero end_)
  || ((time.Equal date start || time.After date start)
      && (time.Equal date end_ || time.Before date end_)).

(** One turn of the loop of [filterData]. *)
Definition filterStep (start end_ : time.Time) (filteredData : list DataPoint.t)
  (item : Item.t) : list DataPoint.t :=
  match time.Parse time.layout_02_01_2006 (Item.Date item) with
  | None => filteredData                                         (* continue *)
  | Some date =>
    if inRange start end_ date
    then filteredData ++ [DataPoint.mk (Item.Date item) (Item.Nav item)]
    else filteredData
  end.

Definition filterData (data : list Item.t) (start end_ : time.Time)
  : list DataPoint.t :=
  fold_left (filterStep start end_) data [].

Definition createSuccessResponse (meta : Meta.t) (data : list DataPoint.t)
  (start end_ : time.Time) : Response.t :=
  let response := Response.mk meta "" data in
  if negb (time.IsZero start) && negb (time.IsZero end_) then
    Response.mk (Response.Meta response)
      (time.Format start time.layout_02_01_2006 ++ " to "
       ++ time.Format end_ time.layout_02_01_2006)
      (Response.Data response)
  else response.

Definition createErrorResponse (w : http.ResponseWriter) (statusCode : Z)
  (message : string) : http.ResponseWriter :=
  let w := http.Set_ "Content-Type" "application/json" w in
  let w := http.WriteHeader statusCode w in
  http.Encode (json.singleton "error" message) w.

(** The handler: the writer after the call and the outbound requests made.
    [json.Marshal] cannot fail on a [Response] (strings, an integer and a
    slice of structs of strings), so the branch taken on its error is never
    entered and is left out. *)
Definition Handler (wd : World) (w : http.ResponseWriter) (r : http.Request)
  : http.ResponseWriter * list string :=
  let mutualFundID := url.Values_Get (http.Query r) "mutualFundID" in
  let startDate := url.Values_Get (http.Query r) "start" in
  let endDate := url.Values_Get (http.Query r) "end" in
  if String.eqb mutualFundID "" then
    (createErrorResponse w http.StatusBadRequest
       "mutualFundID query parameter is required", [])
  else if negb (isValidInteger mutualFundID) then
    (createErrorResponse w http.StatusBadRequest "mutualFundID must be an integer", [])
  else
    match validateAndParseDates (Now wd) startDate endDate with
    | err e => (createErrorResponse w http.StatusBadRequest e, [])
    | ok (start, end_) =>
      match fetchFundData wd mutualFundID with
      | (err e, calls) =>
        (createErrorResponse w http.StatusInternalServerError e, calls)
      | (ok fund, calls) =>
        if Meta.eqb (Fund.Meta fund) Meta.zero then
          (createErrorResponse w http.StatusBadRequest "Invalid mutualFundID", calls)
        else
          let filteredData := filterData (Fund.Data fund) start end_ in
          let response := createSuccessResponse (Fund.Meta fund) filteredData start end_ in
          let jsonResponse := Response.Marshal response in
          let w := http.Set_ "Content-Type" "application/json" w in
          let w := http.WriteHeader http.StatusOK w in
          (http.Write jsonResponse w, calls)
      end
    end.

(** ** What a client sees *)

(** The reply a handler leaves on a fresh writer: status, content type and
    body. *)
Definition contentType (w : http.ResponseWriter) : string :=
  http.Header_Get (http.header w) "Content-Type".

(** The body [createErrorResponse] writes: the object with the single
    member [error], then a newline. *)
Definition errorBody (message : string) : string :=
  "{" ++ json.encodeString "error" ++ ":" ++ json.encodeString message ++ "}" ++ newline.

(** The conversion in the loop of [filterData]. *)
Definition asDataPoint (item : Item.t) : DataPoint.t :=
  DataPoint.mk (Item.Date item) (Item.Nav item).

(** Whether [time.Parse] accepts the date of an item. *)
Definition parses (item : Item.t) : bool :=
  match time.Parse time.layout_02_01_2006 (Item.Date item) with
  | Some _ => true
  | None => false
  end.

(** Whether the loop of [filterData] keeps an item. *)
Definition keeps (start end_ : time.Time) (item : Item.t) : bool :=
  match time.Parse time.layout_02_01_2006 (Item.Date item) with
  | Some date => inRange start end_ date
  | None => false
  end.

(** [start <= date <= end], on instants. *)
Definition within (start end_ date : time.Time) : bool :=
  (time.Equal date start || time.After date start)
  && (time.Equal date end_ || time.Before date end_).

(** Status, body and outbound requests of a run of a handler. *)
Definition observe (out : http.ResponseWriter * list string)
  : option Z * string * list string :=
  (http.status (fst out), http.body (fst out), snd out).

(** Whether an item lies in the range: its date parses and is within
    [start, end], bounds included. *)
Definition inside (start end_ : time.Time) (item : Item.t) : bool :=
  match time.Parse time.layout_02_01_2006 (Item.Date item) with
  | Some date => within start end_ date
  | None => false
  end.

(** The JSON text of the fixed payload, an object with the single member
    [data]. *)
Definition helloCron : string :=
  "{" ++ json.quote ++ "data" ++ json.quote ++ ":"
  ++ json.quote ++ "Hello, Cron!" ++ json.quote ++ "}".

(** ** Sample data *)

Definition values (kvs : list (string * string)) : gmap string (list string) :=
  list_to_map (map (fun kv => (fst kv, [snd kv])) kvs).

Definition GET (query : list (string * string)) : http.Request :=
  http.mkRequest "GET" ∅ (values query).

Definition hdfc : Meta.t :=
  Meta.mk "HDFC Mutual Fund" "Open Ended Schemes" "Equity Scheme" 100027 "HDFC Top 100".

Definition series : list Item.t :=
  [Item.mk "15-02-2023" "101.50"; Item.mk "n/a" "0"; Item.mk "15-01-2023" "100.25"].

(** Noon of 30 October 2026. *)
Definition noon : time.Time :=
  time.mkTime (time.sec (time.Date 2026 10 30) + 12 * 3600) 0.

(** A world whose upstream knows one fund and answers fund 100 with empty
    metadata. *)
Definition sampleWorld : World :=
  mkWorld noon ∅
    (fun url =>
       if String.eqb url (baseURL ++ "100027") then Decoded (Fund.mk hdfc series)
       else if String.eqb url (baseURL ++ "100") then Decoded (Fund.mk Meta.zero [])
       else TransportError "no such host").

(** The sample world with another environment and another answer for every
    other fund. *)
Definition otherWorld : World :=
  mkWorld (Now sampleWorld) {["CRON_SECRET" := "s3cr3t"]}
    (fun url =>
       if String.eqb url (baseURL ++ "100027") then Decoded (Fund.mk hdfc series)
       else DecodeError "unexpected end of JSON input").

Definition cronWorld : World :=
  mkWorld noon {["CRON_SECRET" := "s3cr3t"]} (fun _ => TransportError "").

Definition cronRequest (method authorization : string) : http.Request :=
  http.mkRequest method {["Authorization" := [authorization]]} ∅.

Definition isoStart : http.Request :=
  GET [("mutualFundID", "100027"); ("start", "2023-01-01"); ("end", "31-01-2023")].

Definition isoEnd : http.Request :=
  GET [("mutualFundID", "100027"); ("start", "01-01-2023"); ("end", "2023-01-31")].

Definition futureEnd : http.Request :=
  GET [("mutualFundID", "100027"); ("start", "01-01-2031"); ("end", "01-01-2030")].

Definition swapped : http.Request :=
  GET [("mutualFundID", "100027"); ("start", "02-01-2023"); ("end", "01-01-2023")].

Definition swappedNoId : http.Request :=
  GET [("start", "02-01-2023"); ("end", "01-01-2023")].

Definition january : http.Request :=
  GET [("mutualFundID", "100027"); ("start", "01-01-2023"); ("end", "31-01-2023")].

Definition yearOne : http.Request :=
  GET [("mutualFundID", "100027"); ("start", "01-01-0001"); ("end", "01-01-0001")].

Definition sinceYearOne : http.Request :=
  GET [("mutualFundID", "100027"); ("start", "01-01-0001"); ("end", "31-01-2023")].

(** ** Further sample data and auxiliary functions *)

(** Whether the query parameters of a request pass the checks that come
    before the fetch. *)
Definition validated (wd : World) (r : http.Request) : bool :=
  let mutualFundID := url.Values_Get (http.Query r) "mutualFundID" in
  negb (String.eqb mutualFundID "")
  && isValidInteger mutualFundID
  && match validateAndParseDates (Now wd)
             (url.Values_Get (http.Query r) "start") (url.Values_Get (http.Query r) "end") with
     | ok _ => true
     | err _ => false
     end.

(** Requests with one date only, and for a fund the sample upstream does
    not answer. *)
Definition startOnly : http.Request :=
  GET [("mutualFundID", "100027"); ("start", "01-01-2023")].

Definition endOnly : http.Request :=
  GET [("mutualFundID", "100027"); ("end", "31-01-2023")].

Definition fundSeven : http.Request := GET [("mutualFundID", "7")].

(** [strconv.Atoi] once the sign has been taken off. *)
Definition atoiDigits (neg : bool) (digits : string) : option Z :=
  match digits with
  | EmptyString => None
  | _ =>
    if allDigits digits then
      let n := digitsVal 0 digits in
      let v := if neg then - n else n in
      if (strconv.minInt <=? v) && (v <=? strconv.maxInt) then Some v else None
    else None
  end.

(** An upstream whose only point carries a date in another format. *)
Definition staleFund : Fund.t := Fund.mk hdfc [Item.mk "2023-01-15" "100.25"].

Definition staleWorld : World :=
  mkWorld noon ∅ (fun _ => Decoded staleFund).

(** ** Calendar tables

    Auxiliary functions for the lemmas on [time.Date] and [Time.date]. *)

(** The integers [lo, lo + 1, ..., lo + n - 1]. *)
Definition range (lo n : nat) : list Z := map Z.of_nat (seq lo n).

(** Day of the year of a calendar day, as [Date] counts it. *)
Definition dayOfYear (leap : bool) (month day : Z) : Z :=
  let d := time.daysBefore (month - 1) in
  let d := if leap && (3 <=? month) then d + 1 else d in
  d + (day - 1).

(** Days of a month, by leap year. *)
Definition monthLength (leap : bool) (month : Z) : Z :=
  if (month =? 2) && leap then 29
  else time.daysBefore month - time.daysBefore (month - 1).

(** One entry of the table checked by [monthDay_table]: an existing day
    of the year is mapped back to its month and day. *)
Definition monthDay_ok (leap : bool) (m d : Z) : bool :=
  negb (d <=? monthLength leap m)
  || (let '(m', d') := time.monthDay leap (dayOfYear leap m d) in (m' =? m) && (d' =? d))
     && (dayOfYear leap m d <? (if leap then 366 else 365)).

(** * Properties *)

(** ** Helper lemmas *)

Lemma Meta_eqb_eq (a b : Meta.t) : Meta.eqb a b = true <-> a = b.
Proof.
  destruct a as [a1 a2 a3 a4 a5], b as [b1 b2 b3 b4 b5]; unfold Meta.eqb; simpl.
  rewrite !andb_true_iff, !String.eqb_eq, Z.eqb_eq.
  split.
  - intros [[[[-> ->] ->] ->] ->]; reflexivity.
  - intros H; injection H as -> -> -> -> ->; repeat split.
Qed.

Lemma Meta_eqb_neq (a b : Meta.t) : Meta.eqb a b = false <-> a <> b.
Proof.
  rewrite <- Meta_eqb_eq. destruct (Meta.eqb a b); split; congruence.
Qed.

Lemma append_assoc (s1 s2 s3 : string) : (s1 ++ s2) ++ s3 = s1 ++ s2 ++ s3.
Proof.
  induction s1 as [|c s1 IH]; [reflexivity|].
  change (String c ((s1 ++ s2) ++ s3) = String c (s1 ++ s2 ++ s3)).
  now rewrite IH.
Qed.

Lemma createErrorResponse_status (code : Z) (message : string) :
  http.status (createErrorResponse http.newWriter code message) = Some code.
Proof. reflexivity. Qed.

Lemma createErrorResponse_body (code : Z) (message : string) :
  http.body (createErrorResponse http.newWriter code message) = errorBody message.
Proof.
  unfold errorBody.
  change (http.body (createErrorResponse http.newWriter code message))
    with (("{" ++ (json.encodeString "error" ++ ":" ++ json.encodeString message) ++ "}")
          ++ newline).
  now rewrite !append_assoc.
Qed.

Lemma createErrorResponse_type (code : Z) (message : string) :
  contentType (createErrorResponse http.newWriter code message) = "application/json".
Proof. reflexivity. Qed.

(** The loop of [filterData] appends, in order, the converted items it
    keeps: an invariant of [fold_left] over any accumulator. *)
Lemma filter_loop (start end_ : time.Time) (data : list Item.t) :
  forall acc : list DataPoint.t,
    fold_left (filterStep start end_) data acc
    = (acc ++ map asDataPoint (List.filter (keeps start end_) data))%list.
Proof.
  induction data as [|item rest IH]; intros acc; simpl.
  - now rewrite app_nil_r.
  - rewrite IH. unfold filterStep, keeps.
    destruct (time.Parse time.layout_02_01_2006 (Item.Date item)) as [date|]; [|reflexivity].
    destruct (inRange start end_ date); [|reflexivity].
    simpl. now rewrite <- app_assoc.
Qed.

Lemma filterData_spec (data : list Item.t) (start end_ : time.Time) :
  filterData data start end_ = map asDataPoint (List.filter (keeps start end_) data).
Proof. unfold filterData. now rewrite filter_loop. Qed.

(** Whatever the bounds, the result is a subsequence of the upstream
    series: nothing is added, repeated or reordered. *)
Lemma filterData_sublist (data : list Item.t) (start end_ : time.Time) :
  sublist (filterData data start end_) (map asDataPoint data).
Proof.
  rewrite filterData_spec.
  induction data as [|item rest IH]; simpl; [constructor|].
  destruct (keeps start end_ item); simpl; constructor; exact IH.
Qed.

Lemma keeps_no_range (item : Item.t) : keeps time.zero time.zero item = parses item.
Proof.
  unfold keeps, parses.
  now destruct (time.Parse time.layout_02_01_2006 (Item.Date item)).
Qed.

Lemma filter_ext_bool {A : Type} (f g : A -> bool) (l : list A) :
  (forall x, f x = g x) -> List.filter f l = List.filter g l.
Proof.
  intros H; induction l as [|x l IH]; simpl; [reflexivity|].
  now rewrite H, IH.
Qed.

Lemma filterData_no_range (data : list Item.t) :
  filterData data time.zero time.zero = map asDataPoint (List.filter parses data).
Proof.
  rewrite filterData_spec.
  now rewrite (filter_ext_bool _ _ data keeps_no_range).
Qed.

Lemma filter_all {A : Type} (f : A -> bool) (l : list A) :
  forallb f l = true -> List.filter f l = l.
Proof.
  induction l as [|x l IH]; simpl; [reflexivity|].
  rewrite andb_true_iff. intros [-> H]. now rewrite IH.
Qed.

(** ** time: dates, parsing and formatting *)

Lemma in_range (lo n : nat) (z : Z) :
  Z.of_nat lo <= z < Z.of_nat (lo + n) -> In z (range lo n).
Proof.
  intros H. unfold range. apply in_map_iff. exists (Z.to_nat z).
  split; [lia|]. apply in_seq. lia.
Qed.

Lemma monthDay_table :
  forallb (fun leap =>
    forallb (fun m => forallb (monthDay_ok leap m) (range 1 31)) (range 1 12))
    [true; false] = true.
Proof. vm_compute. reflexivity. Qed.

Lemma monthDay_spec (leap : bool) (m d : Z) :
  1 <= m <= 12 -> 1 <= d <= monthLength leap m ->
  time.monthDay leap (dayOfYear leap m d) = (m, d)
  /\ 0 <= dayOfYear leap m d < 365 + (if leap then 1 else 0).
Proof.
  intros Hm Hd.
  assert (Hlen : monthLength leap m <= 31).
  { assert (Hc : m = 1 \/ m = 2 \/ m = 3 \/ m = 4 \/ m = 5 \/ m = 6 \/ m = 7 \/ m = 8
                   \/ m = 9 \/ m = 10 \/ m = 11 \/ m = 12) by lia.
    repeat (destruct Hc as [-> | Hc]); [..|subst m]; destruct leap; vm_compute; discriminate. }
  pose proof monthDay_table as T.
  rewrite forallb_forall in T.
  assert (Hleap : In leap [true; false]) by (destruct leap; simpl; auto).
  specialize (T leap Hleap). rewrite forallb_forall in T.
  specialize (T m (in_range 1 12 m ltac:(lia))). rewrite forallb_forall in T.
  specialize (T d (in_range 1 31 d ltac:(lia))).
  unfold monthDay_ok in T.
  destruct (Z.leb_spec d (monthLength leap m)) as [_|]; [|lia].
  simpl negb in T. rewrite orb_false_l in T.
  destruct (time.monthDay leap (dayOfYear leap m d)) as [m' d'].
  rewrite !andb_true_iff, !Z.eqb_eq, Z.ltb_lt in T.
  destruct T as [[-> ->] Hlt]. split; [reflexivity|].
  split; [|destruct leap; lia].
  unfold dayOfYear.
  assert (0 <= time.daysBefore (m - 1)).
  { assert (Hc : m = 1 \/ m = 2 \/ m = 3 \/ m = 4 \/ m = 5 \/ m = 6 \/ m = 7 \/ m = 8
                   \/ m = 9 \/ m = 10 \/ m = 11 \/ m = 12) by lia.
    repeat (destruct Hc as [-> | Hc]); [..|subst m]; vm_compute; discriminate. }
  cbv zeta. destruct (leap && (3 <=? m)); lia.
Qed.

Lemma isLeap_spec (y : Z) :
  time.isLeap y = true <-> (y mod 4 = 0 /\ (y mod 100 <> 0 \/ y mod 400 = 0)).
Proof.
  unfold time.isLeap.
  rewrite andb_true_iff, orb_true_iff, negb_true_iff, !Z.eqb_eq, Z.eqb_neq. tauto.
Qed.

Ltac euclid := Z.div_mod_to_equations; lia.

Lemma yearDay_spec (y k : Z) :
  0 <= k < 365 + (if time.isLeap y then 1 else 0) ->
  time.yearDay (time.daysSinceEpoch y + k) = (y, k).
Proof.
  intros Hk.
  pose (a := (y - 1) / 400). pose (r := (y - 1) mod 400).
  pose (b := r / 100). pose (r2 := r mod 100).
  pose (c := r2 / 4). pose (e := r2 mod 4).
  assert (Hy : y - 1 = 400 * a + 100 * b + 4 * c + e
               /\ 0 <= b <= 3 /\ 0 <= c <= 24 /\ 0 <= e <= 3) by (subst a r b r2 c e; euclid).
  destruct Hy as (Hy & Hb & Hc & He).
  assert (Hleap : time.isLeap y = true <-> (e = 3 /\ (c <> 24 \/ b = 3))).
  { rewrite isLeap_spec. clearbody a b c e. clear r r2. euclid. }
  assert (Hk' : 0 <= k <= 365 /\ (k = 365 -> e = 3 /\ (c <> 24 \/ b = 3))).
  { destruct (time.isLeap y); [|lia]. split; [lia|]. intros _. now apply Hleap. }
  clear Hk Hleap.
  assert (HD : time.daysSinceEpoch y + k
               = 146097 * a + (36524 * b + 1461 * c + 365 * e + k)).
  { unfold time.daysSinceEpoch. cbv zeta. clearbody a b c e. clear r r2. euclid. }
  clearbody a b c e. clear r r2.
  rewrite HD. unfold time.yearDay. cbv zeta.
  rewrite !Z.shiftr_div_pow2 by lia. change (2 ^ 2) with 4.
  assert (H1 : (146097 * a + (36524 * b + 1461 * c + 365 * e + k)) / 146097 = a) by euclid.
  rewrite H1.
  replace (146097 * a + (36524 * b + 1461 * c + 365 * e + k) - 146097 * a)
    with (36524 * b + (1461 * c + 365 * e + k)) by lia.
  set (n2 := (36524 * b + (1461 * c + 365 * e + k)) / 36524).
  assert (H2 : n2 - n2 / 4 = b) by (subst n2; euclid).
  rewrite H2.
  replace (36524 * b + (1461 * c + 365 * e + k) - 36524 * b)
    with (1461 * c + (365 * e + k)) by lia.
  assert (H3 : (1461 * c + (365 * e + k)) / 1461 = c) by euclid.
  rewrite H3.
  replace (1461 * c + (365 * e + k) - 1461 * c) with (365 * e + k) by lia.
  set (n4 := (365 * e + k) / 365).
  assert (H4 : n4 - n4 / 4 = e) by (subst n4; euclid).
  rewrite H4.
  f_equal; lia.
Qed.

Lemma daysIn_monthLength (m y : Z) : time.daysIn m y = monthLength (time.isLeap y) m.
Proof. reflexivity. Qed.

Lemma Date_sec (y m d : Z) :
  time.Date y m d
  = time.mkTime ((time.daysSinceEpoch y + dayOfYear (time.isLeap y) m d) * time.secondsPerDay) 0.
Proof.
  unfold time.Date, dayOfYear. cbv zeta. f_equal.
  destruct (time.isLeap y && (3 <=? m)); f_equal; lia.
Qed.

(** [Time.date] inverts [time.Date] on the days of the calendar. *)
Lemma absDate_Date (y m d : Z) :
  1 <= m <= 12 -> 1 <= d <= time.daysIn m y ->
  time.absDate (time.Date y m d) = (y, m, d).
Proof.
  intros Hm Hd. rewrite daysIn_monthLength in Hd.
  destruct (monthDay_spec (time.isLeap y) m d Hm Hd) as [Hmd Hk].
  rewrite Date_sec. unfold time.absDate. simpl time.sec.
  unfold time.secondsPerDay. rewrite Z.div_mul by lia.
  rewrite (yearDay_spec y _ Hk). now rewrite Hmd.
Qed.

Lemma isDigit_range (c : ascii) : isDigit c = true -> 0 <= digitVal c <= 9.
Proof.
  unfold isDigit, digitVal. rewrite andb_true_iff, !Z.leb_le. lia.
Qed.

Lemma digitChar_digitVal (c : ascii) : time.digitChar (digitVal c) = c.
Proof.
  unfold time.digitChar, digitVal, byteZ.
  replace (48 + (Z.of_N (N_of_ascii c) - 48)) with (Z.of_N (N_of_ascii c)) by lia.
  rewrite N2Z.id. apply ascii_N_embedding.
Qed.

Lemma appendInt_two (a b : ascii) :
  isDigit a = true -> isDigit b = true ->
  time.appendInt (digitVal a * 10 + digitVal b) 2 = String a (String b "").
Proof.
  intros Ha%isDigit_range Hb%isDigit_range.
  unfold time.appendInt. cbv zeta.
  rewrite Z.abs_eq by lia.
  destruct (Z.ltb_spec (digitVal a * 10 + digitVal b) 0) as [|_]; [lia|].
  destruct (Z.ltb_spec (digitVal a * 10 + digitVal b) 100) as [_|]; [|lia].
  change ((2 =? 2) && true) with true. cbv iota.
  replace ((digitVal a * 10 + digitVal b) / 10) with (digitVal a) by euclid.
  replace ((digitVal a * 10 + digitVal b) mod 10) with (digitVal b) by euclid.
  now rewrite !digitChar_digitVal.
Qed.

Lemma appendInt_four (a b c d : ascii) :
  isDigit a = true -> isDigit b = true -> isDigit c = true -> isDigit d = true ->
  time.appendInt (digitsVal 0 (String a (String b (String c (String d ""))))) 4
  = String a (String b (String c (String d ""))).
Proof.
  intros Ha%isDigit_range Hb%isDigit_range Hc%isDigit_range Hd%isDigit_range.
  unfold time.appendInt, digitsVal. cbv zeta.
  set (u := (((0 * 10 + digitVal a) * 10 + digitVal b) * 10 + digitVal c) * 10 + digitVal d).
  assert (Hu : 0 <= u < 10000) by (subst u; lia).
  rewrite Z.abs_eq by lia.
  destruct (Z.ltb_spec u 0) as [|_]; [lia|].
  destruct (Z.ltb_spec u 100) as [?|?]; destruct (Z.ltb_spec u 10000) as [_|]; try lia;
    change (4 =? 2) with false; change (4 =? 4) with true; cbn [andb]; cbv iota.
  all: replace (u / 100 / 10) with (digitVal a) by (subst u; euclid).
  all: replace (u / 100 mod 10) with (digitVal b) by (subst u; euclid).
  all: replace (u mod 100 / 10) with (digitVal c) by (subst u; euclid).
  all: replace (u mod 100 mod 10) with (digitVal d) by (subst u; euclid).
  all: now rewrite !digitChar_digitVal.
Qed.

Lemma getnum_inv (s v : string) (n : Z) :
  time.getnum s = Some (n, v) ->
  exists a b, s = String a (String b v) /\ isDigit a = true /\ isDigit b = true
              /\ n = digitVal a * 10 + digitVal b.
Proof.
  destruct s as [|a [|b r]]; try discriminate. unfold time.getnum.
  destruct (isDigit a) eqn:Ha; [|discriminate].
  destruct (isDigit b) eqn:Hb; [|discriminate].
  intros [= <- <-]. now exists a, b.
Qed.

Lemma getyear_inv (s v : string) (n : Z) :
  time.getyear s = Some (n, v) ->
  exists a b c d, s = String a (String b (String c (String d v)))
    /\ isDigit a = true /\ isDigit b = true /\ isDigit c = true /\ isDigit d = true
    /\ n = digitsVal 0 (String a (String b (String c (String d "")))).
Proof.
  destruct s as [|a [|b [|c [|d r]]]]; try discriminate. unfold time.getyear.
  cbv zeta. unfold allDigits.
  destruct (isDigit a) eqn:Ha; [|discriminate].
  destruct (isDigit b) eqn:Hb; [|discriminate].
  destruct (isDigit c) eqn:Hc; [|discriminate].
  destruct (isDigit d) eqn:Hd; [|discriminate].
  intros [= <- <-]. now exists a, b, c, d.
Qed.

(** Formatting a parsed date with the layout it was parsed with gives the
    text back. *)
Ltac step :=
  cbn [mbind option_bind time.parseChunks time.f_year time.f_month time.f_day].

Theorem Format_Parse (s : string) (t : time.Time) :
  time.Parse time.layout_02_01_2006 s = Some t ->
  time.Format t time.layout_02_01_2006 = s.
Proof.
  unfold time.Parse, time.layout_02_01_2006. step.
  destruct (time.getnum s) as [[day v1]|] eqn:Hday; step; [|discriminate].
  apply getnum_inv in Hday as (d1 & d0 & -> & Hd1 & Hd0 & ->).
  destruct v1 as [|c v2]; step; [discriminate|].
  destruct (Ascii.eqb_spec "-" c) as [<-|]; step; [|discriminate].
  destruct (time.getnum v2) as [[month v3]|] eqn:Hmonth; step; [|discriminate].
  apply getnum_inv in Hmonth as (m1 & m0 & -> & Hm1 & Hm0 & ->).
  set (month := digitVal m1 * 10 + digitVal m0).
  destruct (Z.leb_spec month 0) as [|Hlo]; step; [discriminate|].
  destruct (Z.ltb_spec 12 month) as [|Hhi]; step; [discriminate|].
  cbn [orb].
  destruct v3 as [|c v4]; step; [discriminate|].
  destruct (Ascii.eqb_spec "-" c) as [<-|]; step; [|discriminate].
  destruct (time.getyear v4) as [[year v5]|] eqn:Hyear; step; [|discriminate].
  apply getyear_inv in Hyear as (y3 & y2 & y1 & y0 & -> & Hy3 & Hy2 & Hy1 & Hy0 & ->).
  destruct (String.eqb_spec v5 "") as [->|]; step; [|discriminate].
  set (day := digitVal d1 * 10 + digitVal d0).
  set (year := digitsVal 0 _).
  destruct (Z.ltb_spec month 0) as [|_]; [lia|].
  pose proof (isDigit_range _ Hd1). pose proof (isDigit_range _ Hd0).
  destruct (Z.ltb_spec day 0) as [|_]; [subst day; lia|].
  destruct (Z.ltb_spec day 1) as [|Hd]; [discriminate|].
  rewrite Z.gtb_ltb.
  destruct (Z.ltb_spec (time.daysIn month year) day) as [|Hd']; [discriminate|].
  cbn [orb]. intros [= <-].
  unfold time.Format, time.formatChunk. cbn [map].
  rewrite absDate_Date by lia.
  subst day month year.
  rewrite !appendInt_two, appendInt_four by assumption.
  reflexivity.
Qed.

(** The branches of [Handler], one lemma each. *)
Section Branches.

Variables (wd : World) (w : http.ResponseWriter) (r : http.Request).

Let mutualFundID := url.Values_Get (http.Query r) "mutualFundID".
Let startDate := url.Values_Get (http.Query r) "start".
Let endDate := url.Values_Get (http.Query r) "end".

Lemma Handler_missing :
  mutualFundID = "" ->
  Handler wd w r
  = (createErrorResponse w http.StatusBadRequest
       "mutualFundID query parameter is required", []).
Proof.
  subst mutualFundID; intros H. unfold Handler. now rewrite H.
Qed.

Hypothesis present : mutualFundID <> "".

Lemma Handler_not_integer :
  isValidInteger mutualFundID = false ->
  Handler wd w r
  = (createErrorResponse w http.StatusBadRequest "mutualFundID must be an integer", []).
Proof.
  subst mutualFundID; intros H. unfold Handler.
  apply String.eqb_neq in present. now rewrite present, H.
Qed.

Hypothesis integer : isValidInteger mutualFundID = true.

Lemma Handler_bad_dates (e : string) :
  validateAndParseDates (Now wd) startDate endDate = err e ->
  Handler wd w r = (createErrorResponse w http.StatusBadRequest e, []).
Proof.
  subst mutualFundID startDate endDate; intros H. unfold Handler.
  apply String.eqb_neq in present. now rewrite present, integer, H.
Qed.

Variables start end_ : time.Time.
Hypothesis dates : validateAndParseDates (Now wd) startDate endDate = ok (start, end_).

Lemma Handler_transport (e : string) :
  Remote wd (baseURL ++ mutualFundID) = TransportError e ->
  Handler wd w r
  = (createErrorResponse w http.StatusInternalServerError
       ("error fetching data from API: " ++ e), [baseURL ++ mutualFundID]).
Proof.
  subst mutualFundID startDate endDate; intros H. unfold Handler, fetchFundData.
  apply String.eqb_neq in present. now rewrite present, integer, dates, H.
Qed.

Lemma Handler_unknown (fund : Fund.t) :
  Remote wd (baseURL ++ mutualFundID) = Decoded fund ->
  Fund.Meta fund = Meta.zero ->
  Handler wd w r
  = (createErrorResponse w http.StatusBadRequest "Invalid mutualFundID",
     [baseURL ++ mutualFundID]).
Proof.
  subst mutualFundID startDate endDate; intros H Hz. unfold Handler, fetchFundData.
  apply String.eqb_neq in present. apply Meta_eqb_eq in Hz.
  now rewrite present, integer, dates, H, Hz.
Qed.

Lemma Handler_success (fund : Fund.t) :
  Remote wd (baseURL ++ mutualFundID) = Decoded fund ->
  Fund.Meta fund <> Meta.zero ->
  Handler wd w r
  = (http.Write
       (Response.Marshal
          (createSuccessResponse (Fund.Meta fund)
             (filterData (Fund.Data fund) start end_) start end_))
       (http.WriteHeader http.StatusOK
          (http.Set_ "Content-Type" "application/json" w)),
     [baseURL ++ mutualFundID]).
Proof.
  subst mutualFundID startDate endDate; intros H Hz. unfold Handler, fetchFundData.
  apply String.eqb_neq in present. apply Meta_eqb_neq in Hz.
  now rewrite present, integer, dates, H, Hz.
Qed.

End Branches.

Lemma observe_error (code : Z) (message : string) (calls : list string) :
  observe (createErrorResponse http.newWriter code message, calls)
  = (Some code, errorBody message, calls).
Proof.
  unfold observe; simpl fst; simpl snd.
  now rewrite createErrorResponse_status, createErrorResponse_body.
Qed.

Lemma Parse_empty : time.Parse time.layout_02_01_2006 "" = None.
Proof. reflexivity. Qed.

(** Closes a goal about fully concrete data by evaluation. *)
Ltac evaluate :=
  first [ vm_compute; reflexivity
        | vm_compute; discriminate
        | let H := fresh in intro H; vm_compute in H; discriminate H ].

(** ** The cron endpoint *)

Lemma Cron_unauthorized (wd : World) (w : http.ResponseWriter) (r : http.Request) :
  http.Header_Get (http.Header r) "Authorization" <> "Bearer " ++ Getenv wd "CRON_SECRET" ->
  Cron wd w r = http.Error w "Unauthorized" http.StatusUnauthorized.
Proof.
  intros H. unfold Cron. apply String.eqb_neq in H. now rewrite H.
Qed.

Lemma Cron_authorized (wd : World) (w : http.ResponseWriter) (r : http.Request) :
  http.Header_Get (http.Header r) "Authorization" = "Bearer " ++ Getenv wd "CRON_SECRET" ->
  Cron wd w r
  = http.Encode (json.singleton "data" "Hello, Cron!")
      (http.Set_ "Content-Type" "application/json" w).
Proof.
  intros H. unfold Cron. apply String.eqb_eq in H. now rewrite H.
Qed.

(** C9. Whatever the method of the request: when the Authorization header
    differs from "Bearer " followed by the value of CRON_SECRET, the reply
    is 401 with the plain-text line Unauthorized; when it is equal, the
    reply is 200 with the JSON object whose only member data is
    "Hello, Cron!".  Both bodies end with the newline that [http.Error] and
    the JSON encoder write after them. *)
Theorem Cron_authorization (wd : World) (r : http.Request) :
  let authHeader := http.Header_Get (http.Header r) "Authorization" in
  let out := Cron wd http.newWriter r in
  (authHeader <> "Bearer " ++ Getenv wd "CRON_SECRET" ->
   http.status out = Some 401
   /\ contentType out = "text/plain; charset=utf-8"
   /\ http.body out = "Unauthorized" ++ newline)
  /\ (authHeader = "Bearer " ++ Getenv wd "CRON_SECRET" ->
      http.status out = Some 200
      /\ contentType out = "application/json"
      /\ http.body out = helloCron ++ newline).
Proof.
  cbv zeta. split; intros H.
  - rewrite (Cron_unauthorized wd http.newWriter r H).
    repeat split; vm_compute; reflexivity.
  - rewrite (Cron_authorized wd http.newWriter r H).
    repeat split; vm_compute; reflexivity.
Qed.

Lemma Cron_authorization_witness :
  (http.status (Cron cronWorld http.newWriter (cronRequest "POST" "Bearer guess")) = Some 401
   /\ contentType (Cron cronWorld http.newWriter (cronRequest "POST" "Bearer guess"))
      = "text/plain; charset=utf-8"
   /\ http.body (Cron cronWorld http.newWriter (cronRequest "POST" "Bearer guess"))
      = "Unauthorized" ++ newline)
  /\ (http.status (Cron cronWorld http.newWriter (cronRequest "GET" "Bearer s3cr3t")) = Some 200
      /\ contentType (Cron cronWorld http.newWriter (cronRequest "GET" "Bearer s3cr3t"))
         = "application/json"
      /\ http.body (Cron cronWorld http.newWriter (cronRequest "GET" "Bearer s3cr3t"))
         = helloCron ++ newline).
Proof.
  split.
  - refine (proj1 (Cron_authorization cronWorld (cronRequest "POST" "Bearer guess")) _).
    evaluate.
  - refine (proj2 (Cron_authorization cronWorld (cronRequest "GET" "Bearer s3cr3t")) _).
    evaluate.
Defined.

(** C10. When CRON_SECRET is unset or empty, a request whose Authorization
    header is exactly "Bearer " is authorized and gets the 200 payload. *)
Theorem Cron_empty_secret (wd : World) (r : http.Request) :
  Environ wd !! "CRON_SECRET" = None \/ Environ wd !! "CRON_SECRET" = Some "" ->
  http.Header_Get (http.Header r) "Authorization" = "Bearer " ->
  http.status (Cron wd http.newWriter r) = Some 200
  /\ contentType (Cron wd http.newWriter r) = "application/json"
  /\ http.body (Cron wd http.newWriter r) = helloCron ++ newline.
Proof.
  intros Hsecret Hauth.
  assert (Hempty : Getenv wd "CRON_SECRET" = "")
    by (unfold Getenv; destruct Hsecret as [-> | ->]; reflexivity).
  rewrite (Cron_authorized wd http.newWriter r); [|now rewrite Hauth, Hempty].
  repeat split; vm_compute; reflexivity.
Qed.

Lemma Cron_empty_secret_witness :
  http.status (Cron sampleWorld http.newWriter (cronRequest "GET" "Bearer ")) = Some 200
  /\ contentType (Cron sampleWorld http.newWriter (cronRequest "GET" "Bearer "))
     = "application/json"
  /\ http.body (Cron sampleWorld http.newWriter (cronRequest "GET" "Bearer "))
     = helloCron ++ newline.
Proof.
  apply (Cron_empty_secret sampleWorld (cronRequest "GET" "Bearer ")).
  - left. vm_compute. reflexivity.
  - vm_compute. reflexivity.
Defined.

(** ** The data endpoint: parameter validation *)

(** C7, as amended. When mutualFundID is absent or empty the reply is 400
    "mutualFundID query parameter is required"; when it is non-empty and
    [strconv.Atoi] rejects it the reply is 400 "mutualFundID must be an
    integer".  In both cases no outbound request is made, and neither the
    dates of the request, nor the clock, nor the upstream take part. *)
Theorem Handler_mutualFundID_checks (wd : World) (r : http.Request) :
  let mutualFundID := url.Values_Get (http.Query r) "mutualFundID" in
  (http.Query r !! "mutualFundID" = None \/ mutualFundID = "" ->
   observe (Handler wd http.newWriter r)
   = (Some 400, errorBody "mutualFundID query parameter is required", []))
  /\ (mutualFundID <> "" -> isValidInteger mutualFundID = false ->
      observe (Handler wd http.newWriter r)
      = (Some 400, errorBody "mutualFundID must be an integer", [])).
Proof.
  cbv zeta. split.
  - intros H.
    assert (Hempty : url.Values_Get (http.Query r) "mutualFundID" = "").
    { destruct H as [H|H]; [|exact H]. unfold url.Values_Get. now rewrite H. }
    rewrite (Handler_missing wd http.newWriter r Hempty). apply observe_error.
  - intros Hne Hbad.
    rewrite (Handler_not_integer wd http.newWriter r Hne Hbad). apply observe_error.
Qed.

Lemma Handler_mutualFundID_checks_witness :
  observe (Handler sampleWorld http.newWriter (GET [("start", "01-01-2023")]))
  = (Some 400, errorBody "mutualFundID query parameter is required", [])
  /\ observe (Handler sampleWorld http.newWriter
                (GET [("mutualFundID", "12a"); ("end", "01-01-2023")]))
     = (Some 400, errorBody "mutualFundID must be an integer", []).
Proof.
  split.
  - refine (proj1 (Handler_mutualFundID_checks sampleWorld
                     (GET [("start", "01-01-2023")])) _).
    left. vm_compute. reflexivity.
  - refine (proj2 (Handler_mutualFundID_checks sampleWorld
                     (GET [("mutualFundID", "12a"); ("end", "01-01-2023")])) _ _); evaluate.
Defined.

(** C7 as stated fails: a mutualFundID that is present with an empty value
    is not parseable as an integer, and the reply is the "required" message,
    not the "must be an integer" one. *)
Lemma Handler_empty_mutualFundID :
  http.Query (GET [("mutualFundID", "")]) !! "mutualFundID" = Some [""]
  /\ isValidInteger (url.Values_Get (http.Query (GET [("mutualFundID", "")])) "mutualFundID") = false
  /\ observe (Handler sampleWorld http.newWriter (GET [("mutualFundID", "")]))
     = (Some 400, errorBody "mutualFundID query parameter is required", [])
  /\ observe (Handler sampleWorld http.newWriter (GET [("mutualFundID", "")]))
     <> (Some 400, errorBody "mutualFundID must be an integer", []).
Proof.
  repeat split; evaluate.
Qed.

(** C3, as amended. With a valid integer mutualFundID and start and end both
    non-empty: when start does not parse as dd-mm-yyyy the reply is 400
    "invalid start date format. use dd-mm-yyyy"; when start parses and end
    does not, it is 400 "invalid end date format. use dd-mm-yyyy".  No
    outbound request is made. *)
Theorem Handler_date_format (wd : World) (r : http.Request) :
  let mutualFundID := url.Values_Get (http.Query r) "mutualFundID" in
  let startDate := url.Values_Get (http.Query r) "start" in
  let endDate := url.Values_Get (http.Query r) "end" in
  mutualFundID <> "" -> isValidInteger mutualFundID = true ->
  startDate <> "" -> endDate <> "" ->
  (time.Parse time.layout_02_01_2006 startDate = None ->
   observe (Handler wd http.newWriter r)
   = (Some 400, errorBody "invalid start date format. use dd-mm-yyyy", []))
  /\ (time.Parse time.layout_02_01_2006 startDate <> None ->
      time.Parse time.layout_02_01_2006 endDate = None ->
      observe (Handler wd http.newWriter r)
      = (Some 400, errorBody "invalid end date format. use dd-mm-yyyy", [])).
Proof.
  cbv zeta. intros Hid Hint Hs He.
  apply String.eqb_neq in Hs, He.
  split.
  - intros Hstart.
    rewrite (Handler_bad_dates wd http.newWriter r Hid Hint
               "invalid start date format. use dd-mm-yyyy").
    + apply observe_error.
    + unfold validateAndParseDates, parseDates. now rewrite Hs, He, Hstart.
  - intros Hstart Hend.
    rewrite (Handler_bad_dates wd http.newWriter r Hid Hint
               "invalid end date format. use dd-mm-yyyy").
    + apply observe_error.
    + unfold validateAndParseDates, parseDates. rewrite Hs, He, Hend.
      now destruct (time.Parse time.layout_02_01_2006 (url.Values_Get (http.Query r) "start")).
Qed.

Lemma Handler_date_format_witness :
  observe (Handler sampleWorld http.newWriter isoStart)
  = (Some 400, errorBody "invalid start date format. use dd-mm-yyyy", [])
  /\ observe (Handler sampleWorld http.newWriter isoEnd)
     = (Some 400, errorBody "invalid end date format. use dd-mm-yyyy", []).
Proof.
  split.
  - refine (proj1 (Handler_date_format sampleWorld isoStart _ _ _ _) _); evaluate.
  - refine (proj2 (Handler_date_format sampleWorld isoEnd _ _ _ _) _ _); evaluate.
Defined.

(** C3 as stated fails: the message names the date that did not parse; no
    input produces "invalid start/end date format. use dd-mm-yyyy". *)
Lemma Handler_date_format_message :
  isValidInteger (url.Values_Get (http.Query isoStart) "mutualFundID") = true
  /\ url.Values_Get (http.Query isoStart) "start" <> ""
  /\ url.Values_Get (http.Query isoStart) "end" <> ""
  /\ time.Parse time.layout_02_01_2006 (url.Values_Get (http.Query isoStart) "start") = None
  /\ observe (Handler sampleWorld http.newWriter isoStart)
     = (Some 400, errorBody "invalid start date format. use dd-mm-yyyy", [])
  /\ observe (Handler sampleWorld http.newWriter isoStart)
     <> (Some 400, errorBody "invalid start/end date format. use dd-mm-yyyy", []).
Proof.
  repeat split; evaluate.
Qed.

(** C6, as amended. With a valid integer mutualFundID and start and end both
    parsing as dd-mm-yyyy: when the parsed end is strictly after the current
    time the reply is 400 "end date cannot be in the future", whatever start
    is; otherwise, when the parsed start is after the parsed end, it is 400
    "start date cannot be after end date".  No outbound request is made. *)
Theorem Handler_date_order (wd : World) (r : http.Request) (start end_ : time.Time) :
  let mutualFundID := url.Values_Get (http.Query r) "mutualFundID" in
  mutualFundID <> "" -> isValidInteger mutualFundID = true ->
  time.Parse time.layout_02_01_2006 (url.Values_Get (http.Query r) "start") = Some start ->
  time.Parse time.layout_02_01_2006 (url.Values_Get (http.Query r) "end") = Some end_ ->
  (time.After end_ (Now wd) = true ->
   observe (Handler wd http.newWriter r)
   = (Some 400, errorBody "end date cannot be in the future", []))
  /\ (time.After end_ (Now wd) = false -> time.After start end_ = true ->
      observe (Handler wd http.newWriter r)
      = (Some 400, errorBody "start date cannot be after end date", [])).
Proof.
  cbv zeta. intros Hid Hint Hstart Hend.
  assert (Hs : String.eqb (url.Values_Get (http.Query r) "start") "" = false).
  { apply String.eqb_neq. intros E. rewrite E, Parse_empty in Hstart. discriminate. }
  assert (He : String.eqb (url.Values_Get (http.Query r) "end") "" = false).
  { apply String.eqb_neq. intros E. rewrite E, Parse_empty in Hend. discriminate. }
  split.
  - intros Hfuture.
    rewrite (Handler_bad_dates wd http.newWriter r Hid Hint "end date cannot be in the future").
    + apply observe_error.
    + unfold validateAndParseDates, parseDates.
      now rewrite Hs, He, Hstart, Hend, Hfuture.
  - intros Hpast Horder.
    rewrite (Handler_bad_dates wd http.newWriter r Hid Hint
               "start date cannot be after end date").
    + apply observe_error.
    + unfold validateAndParseDates, parseDates.
      now rewrite Hs, He, Hstart, Hend, Hpast, Horder.
Qed.

Lemma Handler_date_order_witness :
  observe (Handler sampleWorld http.newWriter futureEnd)
  = (Some 400, errorBody "end date cannot be in the future", [])
  /\ observe (Handler sampleWorld http.newWriter swapped)
     = (Some 400, errorBody "start date cannot be after end date", []).
Proof.
  split.
  - refine (proj1 (Handler_date_order sampleWorld futureEnd
                     (time.Date 2031 1 1) (time.Date 2030 1 1) _ _ _ _) _); evaluate.
  - refine (proj2 (Handler_date_order sampleWorld swapped
                     (time.Date 2023 1 2) (time.Date 2023 1 1) _ _ _ _) _ _); evaluate.
Defined.

(** C6 as stated fails: it speaks of every request whose dates parse, but a
    request without mutualFundID is answered by the mutualFundID check
    before its dates are looked at. *)
Lemma Handler_date_order_needs_id :
  time.Parse time.layout_02_01_2006 (url.Values_Get (http.Query swappedNoId) "start")
  = Some (time.Date 2023 1 2)
  /\ time.Parse time.layout_02_01_2006 (url.Values_Get (http.Query swappedNoId) "end")
     = Some (time.Date 2023 1 1)
  /\ time.After (time.Date 2023 1 1) (Now sampleWorld) = false
  /\ time.After (time.Date 2023 1 2) (time.Date 2023 1 1) = true
  /\ observe (Handler sampleWorld http.newWriter swappedNoId)
     = (Some 400, errorBody "mutualFundID query parameter is required", [])
  /\ observe (Handler sampleWorld http.newWriter swappedNoId)
     <> (Some 400, errorBody "start date cannot be after end date", []).
Proof.
  repeat split; evaluate.
Qed.

(** ** The data endpoint: the fetched fund *)

(** C5. For a request that passes parameter validation and whose upstream
    fetch succeeds: when the metadata is the zero value (four empty strings
    and scheme code 0) the reply is 400 "Invalid mutualFundID"; when it is
    not, the handler filters the series, assembles the response and replies
    200 with its JSON encoding.  Exactly one outbound request was made. *)
Theorem Handler_metadata_check (wd : World) (r : http.Request)
  (start end_ : time.Time) (fund : Fund.t) :
  let mutualFundID := url.Values_Get (http.Query r) "mutualFundID" in
  mutualFundID <> "" -> isValidInteger mutualFundID = true ->
  validateAndParseDates (Now wd)
    (url.Values_Get (http.Query r) "start") (url.Values_Get (http.Query r) "end") = ok (start, end_) ->
  Remote wd (baseURL ++ mutualFundID) = Decoded fund ->
  (Fund.Meta fund = Meta.mk "" "" "" 0 "" ->
   observe (Handler wd http.newWriter r)
   = (Some 400, errorBody "Invalid mutualFundID", [baseURL ++ mutualFundID]))
  /\ (Fund.Meta fund <> Meta.mk "" "" "" 0 "" ->
      observe (Handler wd http.newWriter r)
      = (Some 200,
         Response.Marshal
           (createSuccessResponse (Fund.Meta fund)
              (filterData (Fund.Data fund) start end_) start end_),
         [baseURL ++ mutualFundID])).
Proof.
  cbv zeta. intros Hid Hint Hdates Hfetch. split; intros Hmeta.
  - rewrite (Handler_unknown wd http.newWriter r Hid Hint start end_ Hdates fund Hfetch Hmeta).
    apply observe_error.
  - rewrite (Handler_success wd http.newWriter r Hid Hint start end_ Hdates fund Hfetch Hmeta).
    reflexivity.
Qed.

Lemma Handler_metadata_check_witness :
  observe (Handler sampleWorld http.newWriter (GET [("mutualFundID", "100")]))
  = (Some 400, errorBody "Invalid mutualFundID", [baseURL ++ "100"])
  /\ observe (Handler sampleWorld http.newWriter january)
     = (Some 200,
        Response.Marshal
          (Response.mk hdfc "01-01-2023 to 31-01-2023"
             [DataPoint.mk "15-01-2023" "100.25"]),
        [baseURL ++ "100027"]).
Proof.
  split.
  - refine (proj1 (Handler_metadata_check sampleWorld (GET [("mutualFundID", "100")])
                     time.zero time.zero (Fund.mk Meta.zero []) _ _ _ _) _); evaluate.
  - refine (eq_trans
              (proj2 (Handler_metadata_check sampleWorld january
                        (time.Date 2023 1 1) (time.Date 2023 1 31) (Fund.mk hdfc series)
                        _ _ _ _) _) _); evaluate.
Defined.

(** C1, as amended. For a request with a valid integer mutualFundID and
    neither start nor end, whose fetch succeeds with non-zero metadata: the
    reply is 200; its data are the upstream points whose date parses as
    dd-mm-yyyy, in upstream order, so the full series when every date
    parses; and the encoded object has no period member. *)
Theorem Handler_no_range (wd : World) (r : http.Request) (fund : Fund.t) :
  let mutualFundID := url.Values_Get (http.Query r) "mutualFundID" in
  let response :=
    Response.mk (Fund.Meta fund) ""
      (map asDataPoint (List.filter parses (Fund.Data fund))) in
  mutualFundID <> "" -> isValidInteger mutualFundID = true ->
  url.Values_Get (http.Query r) "start" = "" -> url.Values_Get (http.Query r) "end" = "" ->
  Remote wd (baseURL ++ mutualFundID) = Decoded fund ->
  Fund.Meta fund <> Meta.zero ->
  observe (Handler wd http.newWriter r)
  = (Some 200, Response.Marshal response, [baseURL ++ mutualFundID])
  /\ ~ In "period" (json.keys (Response.toJSON response))
  /\ (forallb parses (Fund.Data fund) = true ->
      Response.Data response = map asDataPoint (Fund.Data fund)).
Proof.
  cbv zeta. intros Hid Hint Hs He Hfetch Hmeta.
  assert (Hdates : validateAndParseDates (Now wd)
                     (url.Values_Get (http.Query r) "start") (url.Values_Get (http.Query r) "end")
                   = ok (time.zero, time.zero))
    by now rewrite Hs, He.
  split; [|split].
  - rewrite (Handler_success wd http.newWriter r Hid Hint _ _ Hdates fund Hfetch Hmeta).
    rewrite filterData_no_range. reflexivity.
  - simpl. intros [H|[H|[]]]; discriminate H.
  - intros Hall. simpl. now rewrite (filter_all _ _ Hall).
Qed.

Lemma Handler_no_range_witness :
  observe (Handler sampleWorld http.newWriter (GET [("mutualFundID", "100027")]))
  = (Some 200,
     Response.Marshal
       (Response.mk hdfc ""
          [DataPoint.mk "15-02-2023" "101.50"; DataPoint.mk "15-01-2023" "100.25"]),
     [baseURL ++ "100027"]).
Proof.
  refine (eq_trans
            (proj1 (Handler_no_range sampleWorld (GET [("mutualFundID", "100027")])
                      (Fund.mk hdfc series) _ _ _ _ _ _)) _); evaluate.
Defined.

(** C1 as stated fails: the sample series holds a point whose date does not
    parse; without start and end the reply is 200, but its data are not the
    full upstream series. *)
Lemma Handler_no_range_drops_unparsed :
  isValidInteger (url.Values_Get (http.Query (GET [("mutualFundID", "100027")])) "mutualFundID")
  = true
  /\ http.Query (GET [("mutualFundID", "100027")]) !! "start" = None
  /\ http.Query (GET [("mutualFundID", "100027")]) !! "end" = None
  /\ Remote sampleWorld (baseURL ++ "100027") = Decoded (Fund.mk hdfc series)
  /\ hdfc <> Meta.zero
  /\ observe (Handler sampleWorld http.newWriter (GET [("mutualFundID", "100027")]))
     <> (Some 200, Response.Marshal (Response.mk hdfc "" (map asDataPoint series)),
         [baseURL ++ "100027"]).
Proof.
  repeat split; evaluate.
Qed.

(** ** The data endpoint: the date range *)

(** Unless both bounds are the zero time, [filterData] selects the items
    inside the range, in upstream order; an item whose date does not parse
    is left out and nothing fails. *)
Lemma filterData_range (data : list Item.t) (start end_ : time.Time) :
  time.IsZero start && time.IsZero end_ = false ->
  filterData data start end_ = map asDataPoint (List.filter (inside start end_) data).
Proof.
  intros Hz. rewrite filterData_spec. f_equal.
  apply filter_ext_bool. intros item. unfold keeps, inside, inRange, within.
  destruct (time.Parse time.layout_02_01_2006 (Item.Date item)); [|reflexivity].
  now rewrite Hz.
Qed.

(** The period is written when neither bound is the zero time. *)
Lemma createSuccessResponse_period (meta : Meta.t) (data : list DataPoint.t)
  (start end_ : time.Time) :
  time.IsZero start = false -> time.IsZero end_ = false ->
  createSuccessResponse meta data start end_
  = Response.mk meta
      (time.Format start time.layout_02_01_2006 ++ " to "
       ++ time.Format end_ time.layout_02_01_2006) data.
Proof.
  intros Hs He. unfold createSuccessResponse. now rewrite Hs, He.
Qed.

(** It is left empty, and so left out of the JSON object, when one of the
    bounds is the zero time. *)
Lemma createSuccessResponse_no_period (meta : Meta.t) (data : list DataPoint.t)
  (start end_ : time.Time) :
  time.IsZero start || time.IsZero end_ = true ->
  createSuccessResponse meta data start end_ = Response.mk meta "" data.
Proof.
  intros H. unfold createSuccessResponse.
  destruct (time.IsZero start), (time.IsZero end_); try discriminate H; reflexivity.
Qed.

Lemma toJSON_period (r : Response.t) :
  In "period" (json.keys (Response.toJSON r)) <-> Response.Period r <> "".
Proof.
  unfold Response.toJSON. simpl.
  destruct (String.eqb_spec (Response.Period r) "") as [E|E]; simpl.
  - split; [|congruence]. intros [H|[H|[]]]; discriminate H.
  - split; [intros _; exact E|]. intros _. right. left. reflexivity.
Qed.

(** A validated range whose bounds are not both the zero time: the reply
    holds exactly the upstream points inside the range, in upstream order. *)
Lemma Handler_range (wd : World) (r : http.Request) (start end_ : time.Time)
  (fund : Fund.t) :
  url.Values_Get (http.Query r) "mutualFundID" <> "" ->
  isValidInteger (url.Values_Get (http.Query r) "mutualFundID") = true ->
  validateAndParseDates (Now wd)
    (url.Values_Get (http.Query r) "start") (url.Values_Get (http.Query r) "end")
  = ok (start, end_) ->
  time.IsZero start && time.IsZero end_ = false ->
  Remote wd (baseURL ++ url.Values_Get (http.Query r) "mutualFundID") = Decoded fund ->
  Fund.Meta fund <> Meta.zero ->
  observe (Handler wd http.newWriter r)
  = (Some 200,
     Response.Marshal
       (createSuccessResponse (Fund.Meta fund)
          (map asDataPoint (List.filter (inside start end_) (Fund.Data fund)))
          start end_),
     [baseURL ++ url.Values_Get (http.Query r) "mutualFundID"]).
Proof.
  intros Hid Hint Hdates Hz Hfetch Hmeta.
  rewrite (Handler_success wd http.newWriter r Hid Hint start end_ Hdates fund Hfetch Hmeta).
  now rewrite (filterData_range _ _ _ Hz).
Qed.

(** The first of January of year 1 is a date [time.Parse] accepts, and it
    is the zero time. *)
Lemma Parse_year_one :
  time.Parse time.layout_02_01_2006 "01-01-0001" = Some time.zero.
Proof. reflexivity. Qed.

Lemma IsZero_zero (t : time.Time) : time.IsZero t = true <-> t = time.zero.
Proof.
  destruct t as [s n]. unfold time.IsZero, time.zero. simpl.
  rewrite andb_true_iff, !Z.eqb_eq. split.
  - now intros [-> ->].
  - now intros [= -> ->].
Qed.

(** It is the only one: a parsed date is the zero time exactly when its
    text is 01-01-0001. *)
Lemma Parse_zero_iff (s : string) (t : time.Time) :
  time.Parse time.layout_02_01_2006 s = Some t ->
  (time.IsZero t = true <-> s = "01-01-0001").
Proof.
  intros Hparse. rewrite IsZero_zero. split.
  - intros ->. now rewrite <- (Format_Parse _ _ Hparse).
  - intros ->. rewrite Parse_year_one in Hparse. congruence.
Qed.

(** What a successful validation of a supplied range says. *)
Lemma validateAndParseDates_range (now : time.Time) (startDate endDate : string)
  (start end_ : time.Time) :
  startDate <> "" ->
  validateAndParseDates now startDate endDate = ok (start, end_) ->
  time.Parse time.layout_02_01_2006 startDate = Some start
  /\ time.Parse time.layout_02_01_2006 endDate = Some end_
  /\ time.After end_ now = false
  /\ time.After start end_ = false.
Proof.
  intros Hs%String.eqb_neq. unfold validateAndParseDates, parseDates. rewrite Hs.
  destruct (String.eqb endDate ""); cbn [negb andb]; [discriminate|].
  destruct (time.Parse time.layout_02_01_2006 startDate) as [t1|]; [|discriminate].
  destruct (time.Parse time.layout_02_01_2006 endDate) as [t2|]; [|discriminate].
  destruct (time.After t2 now) eqn:Hfuture; [discriminate|].
  destruct (time.After t1 t2) eqn:Horder; [discriminate|].
  intros [= <- <-]. repeat split; assumption.
Qed.

(** A supplied and validated range in which neither date is 01-01-0001:
    the reply is 200, its period is "<start> to <end>" with the two dates
    as they were given, and its data are exactly the upstream points whose
    date parses and lies within the bounds, in upstream order. *)
Lemma Handler_dated (wd : World) (r : http.Request) (start end_ : time.Time)
  (fund : Fund.t) :
  url.Values_Get (http.Query r) "mutualFundID" <> "" ->
  isValidInteger (url.Values_Get (http.Query r) "mutualFundID") = true ->
  url.Values_Get (http.Query r) "start" <> "" ->
  validateAndParseDates (Now wd)
    (url.Values_Get (http.Query r) "start") (url.Values_Get (http.Query r) "end")
  = ok (start, end_) ->
  url.Values_Get (http.Query r) "start" <> "01-01-0001" ->
  url.Values_Get (http.Query r) "end" <> "01-01-0001" ->
  Remote wd (baseURL ++ url.Values_Get (http.Query r) "mutualFundID") = Decoded fund ->
  Fund.Meta fund <> Meta.zero ->
  observe (Handler wd http.newWriter r)
  = (Some 200,
     Response.Marshal
       (Response.mk (Fund.Meta fund)
          (url.Values_Get (http.Query r) "start" ++ " to "
           ++ url.Values_Get (http.Query r) "end")
          (map asDataPoint (List.filter (inside start end_) (Fund.Data fund)))),
     [baseURL ++ url.Values_Get (http.Query r) "mutualFundID"]).
Proof.
  intros Hid Hint Hs Hdates Hs1 He1 Hfetch Hmeta.
  destruct (validateAndParseDates_range _ _ _ _ _ Hs Hdates) as (Pstart & Pend & _ & _).
  assert (Zs : time.IsZero start = false).
  { destruct (time.IsZero start) eqn:E; [|reflexivity].
    apply (Parse_zero_iff _ _ Pstart) in E. contradiction. }
  assert (Ze : time.IsZero end_ = false).
  { destruct (time.IsZero end_) eqn:E; [|reflexivity].
    apply (Parse_zero_iff _ _ Pend) in E. contradiction. }
  rewrite (Handler_range wd r start end_ fund Hid Hint Hdates) by
    (try assumption; now rewrite Zs).
  rewrite (createSuccessResponse_period _ _ _ _ Zs Ze).
  now rewrite (Format_Parse _ _ Pstart), (Format_Parse _ _ Pend).
Qed.

(** C2 at start = end = 01-01-0001. Both dates parse and pass validation,
    and no point of the upstream series lies inside the range; yet the
    reply is 200 with every point whose date parses: the parsed bounds are
    both the zero time, which [filterData] reads as an absent range. *)
Theorem Handler_year_one_range :
  validateAndParseDates (Now sampleWorld)
    (url.Values_Get (http.Query yearOne) "start") (url.Values_Get (http.Query yearOne) "end")
  = ok (time.zero, time.zero)
  /\ List.filter (inside time.zero time.zero) series = []
  /\ observe (Handler sampleWorld http.newWriter yearOne)
     = (Some 200,
        Response.Marshal
          (Response.mk hdfc ""
             [DataPoint.mk "15-02-2023" "101.50"; DataPoint.mk "15-01-2023" "100.25"]),
        [baseURL ++ "100027"]).
Proof.
  repeat split; evaluate.
Qed.

(** C4 at start = 01-01-0001, end = 31-01-2023. Both dates parse and pass
    validation, the series is filtered by the range and the reply is 200;
    yet the encoded object has no period member: the parsed start is the zero
    time, which [createSuccessResponse] reads as an absent bound. *)
Theorem Handler_year_one_period :
  validateAndParseDates (Now sampleWorld)
    (url.Values_Get (http.Query sinceYearOne) "start") (url.Values_Get (http.Query sinceYearOne) "end")
  = ok (time.zero, time.Date 2023 1 31)
  /\ observe (Handler sampleWorld http.newWriter sinceYearOne)
     = (Some 200,
        Response.Marshal (Response.mk hdfc "" [DataPoint.mk "15-01-2023" "100.25"]),
        [baseURL ++ "100027"])
  /\ ~ In "period"
         (json.keys (Response.toJSON
                       (Response.mk hdfc "" [DataPoint.mk "15-01-2023" "100.25"]))).
Proof.
  repeat split; try evaluate.
  rewrite toJSON_period. simpl. congruence.
Qed.

(** * Further properties of the handlers *)

(** X1. With a valid integer mutualFundID and exactly one of start and end
    non-empty, the reply is 400 "both start and end dates are required in
    the format dd-mm-yyyy" and no outbound request is made. *)
Theorem Handler_one_date (wd : World) (r : http.Request) :
  let mutualFundID := url.Values_Get (http.Query r) "mutualFundID" in
  let startDate := url.Values_Get (http.Query r) "start" in
  let endDate := url.Values_Get (http.Query r) "end" in
  mutualFundID <> "" -> isValidInteger mutualFundID = true ->
  (startDate = "" /\ endDate <> "") \/ (startDate <> "" /\ endDate = "") ->
  observe (Handler wd http.newWriter r)
  = (Some 400,
     errorBody "both start and end dates are required in the format dd-mm-yyyy", []).
Proof.
  cbv zeta. intros Hid Hint Hone.
  rewrite (Handler_bad_dates wd http.newWriter r Hid Hint
             "both start and end dates are required in the format dd-mm-yyyy").
  - apply observe_error.
  - unfold validateAndParseDates.
    destruct Hone as [[-> He]|[Hs ->]].
    + apply String.eqb_neq in He. now rewrite He.
    + apply String.eqb_neq in Hs. now rewrite Hs.
Qed.

Lemma Handler_one_date_witness :
  observe (Handler sampleWorld http.newWriter startOnly)
  = (Some 400,
     errorBody "both start and end dates are required in the format dd-mm-yyyy", [])
  /\ observe (Handler sampleWorld http.newWriter endOnly)
     = (Some 400,
        errorBody "both start and end dates are required in the format dd-mm-yyyy", []).
Proof.
  split.
  - refine (Handler_one_date sampleWorld startOnly _ _ _); [evaluate|evaluate|].
    right. split; evaluate.
  - refine (Handler_one_date sampleWorld endOnly _ _ _); [evaluate|evaluate|].
    left. split; evaluate.
Defined.

(** X2. When the parameters validate and the fetch fails, the reply is 500
    and carries the wrapped message: "error fetching data from API: " before
    a transport error, "error decoding API response: " before a decoding
    error.  One outbound request was made, to the base URL followed by the
    mutualFundID as given. *)
Theorem Handler_upstream_failure (wd : World) (r : http.Request)
  (start end_ : time.Time) (e : string) :
  let mutualFundID := url.Values_Get (http.Query r) "mutualFundID" in
  mutualFundID <> "" -> isValidInteger mutualFundID = true ->
  validateAndParseDates (Now wd)
    (url.Values_Get (http.Query r) "start") (url.Values_Get (http.Query r) "end")
  = ok (start, end_) ->
  (Remote wd ("https://api.mfapi.in/mf/" ++ mutualFundID) = TransportError e ->
   observe (Handler wd http.newWriter r)
   = (Some 500, errorBody ("error fetching data from API: " ++ e),
      ["https://api.mfapi.in/mf/" ++ mutualFundID]))
  /\ (Remote wd ("https://api.mfapi.in/mf/" ++ mutualFundID) = DecodeError e ->
      observe (Handler wd http.newWriter r)
      = (Some 500, errorBody ("error decoding API response: " ++ e),
         ["https://api.mfapi.in/mf/" ++ mutualFundID])).
Proof.
  cbv zeta. intros Hid Hint Hdates.
  apply String.eqb_neq in Hid.
  split; intros Hremote; unfold Handler, fetchFundData;
    fold baseURL in Hremote; rewrite Hid, Hint, Hdates, Hremote;
    cbn [negb]; apply observe_error.
Qed.

Lemma Handler_upstream_failure_witness :
  observe (Handler sampleWorld http.newWriter fundSeven)
  = (Some 500, errorBody "error fetching data from API: no such host",
     ["https://api.mfapi.in/mf/7"])
  /\ observe (Handler otherWorld http.newWriter fundSeven)
     = (Some 500, errorBody "error decoding API response: unexpected end of JSON input",
        ["https://api.mfapi.in/mf/7"]).
Proof.
  split.
  - refine (proj1 (Handler_upstream_failure sampleWorld fundSeven time.zero time.zero
                     "no such host" _ _ _) _); evaluate.
  - refine (proj2 (Handler_upstream_failure otherWorld fundSeven time.zero time.zero
                     "unexpected end of JSON input" _ _ _) _); evaluate.
Defined.

(** X3. The handler makes at most one outbound request: none when the
    parameters do not validate, and otherwise exactly one, to the base URL
    followed by the mutualFundID as given. *)
Theorem Handler_outbound (wd : World) (w : http.ResponseWriter) (r : http.Request) :
  snd (Handler wd w r)
  = if validated wd r
    then ["https://api.mfapi.in/mf/" ++ url.Values_Get (http.Query r) "mutualFundID"]
    else [].
Proof.
  unfold Handler, validated, fetchFundData. cbv zeta.
  destruct (String.eqb (url.Values_Get (http.Query r) "mutualFundID") ""); [reflexivity|].
  destruct (isValidInteger (url.Values_Get (http.Query r) "mutualFundID")); [|reflexivity].
  cbn [negb andb].
  destruct (validateAndParseDates _ _ _) as [[start end_]|msg]; [|reflexivity].
  fold baseURL.
  destruct (Remote wd _) as [e|e|fund]; try reflexivity.
  now destruct (Meta.eqb (Fund.Meta fund) Meta.zero).
Qed.

Lemma createErrorResponse_reply (code : Z) (message : string) :
  let out := createErrorResponse http.newWriter code message in
  http.status out = Some code /\ contentType out = "application/json"
  /\ http.body out <> "".
Proof.
  cbv zeta. split; [reflexivity|]. split; [reflexivity|].
  rewrite createErrorResponse_body. unfold errorBody. discriminate.
Qed.

(** X4. Whatever the request, the clock and the upstream, the reply on a
    fresh writer has status 200, 400 or 500, content type application/json
    and a body that is not empty. *)
Theorem Handler_reply_shape (wd : World) (r : http.Request) :
  let out := fst (Handler wd http.newWriter r) in
  (http.status out = Some 200 \/ http.status out = Some 400 \/ http.status out = Some 500)
  /\ contentType out = "application/json"
  /\ http.body out <> "".
Proof.
  cbv zeta. unfold Handler, fetchFundData.
  destruct (String.eqb (url.Values_Get (http.Query r) "mutualFundID") "");
    [split; [right; left; reflexivity|apply createErrorResponse_reply]|].
  destruct (isValidInteger (url.Values_Get (http.Query r) "mutualFundID"));
    cbn [negb]; [|split; [right; left; reflexivity|apply createErrorResponse_reply]].
  destruct (validateAndParseDates _ _ _) as [[start end_]|msg];
    [|split; [right; left; reflexivity|apply createErrorResponse_reply]].
  destruct (Remote wd _) as [e|e|fund]; cbn [fst];
    try (split; [right; right; reflexivity|apply createErrorResponse_reply]).
  destruct (Meta.eqb (Fund.Meta fund) Meta.zero);
    [split; [right; left; reflexivity|apply createErrorResponse_reply]|].
  split; [left; reflexivity|]. split; [reflexivity|].
  unfold http.Write, http.WriteHeader, http.Set_, Response.Marshal, Response.toJSON.
  cbn [http.status http.header http.body http.newWriter fst]. discriminate.
Qed.

(** X5. The status tells what happened: it is 200 exactly when the
    parameters validate and the upstream answers with a fund whose metadata
    is not the zero value, and 500 exactly when the parameters validate and
    the fetch or the decoding fails. *)
Theorem Handler_status (wd : World) (r : http.Request) :
  let answer :=
    Remote wd ("https://api.mfapi.in/mf/" ++ url.Values_Get (http.Query r) "mutualFundID") in
  let status := http.status (fst (Handler wd http.newWriter r)) in
  (status = Some 200
   <-> validated wd r = true
       /\ exists fund, answer = Decoded fund /\ Fund.Meta fund <> Meta.zero)
  /\ (status = Some 500
      <-> validated wd r = true
          /\ exists e, answer = TransportError e \/ answer = DecodeError e).
Proof.
  cbv zeta. unfold Handler, validated, fetchFundData. cbv zeta. fold baseURL.
  destruct (String.eqb (url.Values_Get (http.Query r) "mutualFundID") "");
    [cbn; split; split; (discriminate || (intros [? _]; discriminate))|].
  destruct (isValidInteger (url.Values_Get (http.Query r) "mutualFundID"));
    [|cbn; split; split; (discriminate || (intros [? _]; discriminate))].
  cbn [negb andb].
  destruct (validateAndParseDates _ _ _) as [[start end_]|msg];
    [|cbn; split; split; (discriminate || (intros [? _]; discriminate))].
  destruct (Remote wd _) as [e|e|fund]; cbn [fst].
  - split; split.
    + discriminate.
    + intros [_ (fund & H & _)]. discriminate.
    + intros _. split; [reflexivity|]. exists e. now left.
    + reflexivity.
  - split; split.
    + discriminate.
    + intros [_ (fund & H & _)]. discriminate.
    + intros _. split; [reflexivity|]. exists e. now right.
    + reflexivity.
  - destruct (Meta.eqb (Fund.Meta fund) Meta.zero) eqn:Hmeta.
    + apply Meta_eqb_eq in Hmeta. split; split.
      * discriminate.
      * intros [_ (fund' & [= <-] & Hne)]. contradiction.
      * discriminate.
      * intros [_ (e & [H|H])]; discriminate.
    + apply Meta_eqb_neq in Hmeta. split; split.
      * intros _. split; [reflexivity|]. now exists fund.
      * reflexivity.
      * discriminate.
      * intros [_ (e & [H|H])]; discriminate.
Qed.

(** X6. A point is in the result of [filterData] exactly when it is the
    copy of an upstream item whose date parses and, unless both bounds are
    the zero time, lies within the bounds, ends included. *)
Theorem filterData_In (data : list Item.t) (start end_ : time.Time) (p : DataPoint.t) :
  In p (filterData data start end_)
  <-> exists item date,
        In item data
        /\ p = DataPoint.mk (Item.Date item) (Item.Nav item)
        /\ time.Parse time.layout_02_01_2006 (Item.Date item) = Some date
        /\ (time.IsZero start && time.IsZero end_ = true \/ within start end_ date = true).
Proof.
  rewrite filterData_spec, in_map_iff. split.
  - intros (item & <- & Hin). apply filter_In in Hin as [Hin Hkeep].
    unfold keeps in Hkeep.
    destruct (time.Parse time.layout_02_01_2006 (Item.Date item)) as [date|] eqn:Hparse;
      [|discriminate].
    exists item, date. repeat split; try assumption.
    unfold inRange in Hkeep. apply orb_true_iff in Hkeep. exact Hkeep.
  - intros (item & date & Hin & -> & Hparse & Hrange).
    exists item. split; [reflexivity|]. apply filter_In. split; [assumption|].
    unfold keeps. rewrite Hparse. unfold inRange. apply orb_true_iff. exact Hrange.
Qed.

(** X8. Filtering goes item by item: the result for a series made of two
    parts is the result for the first part followed by the result for the
    second. *)
Theorem filterData_app (a b : list Item.t) (start end_ : time.Time) :
  filterData (a ++ b) start end_
  = (filterData a start end_ ++ filterData b start end_)%list.
Proof.
  rewrite !filterData_spec, List.filter_app. apply map_app.
Qed.

Lemma After_trans_le (d e now : time.Time) :
  time.Equal d e || time.Before d e = true ->
  time.After e now = false -> time.After d now = false.
Proof.
  destruct d as [ds dn], e as [es en], now as [ns nn].
  unfold time.Equal, time.Before, time.After; simpl.
  rewrite !orb_true_iff, !orb_false_iff, !andb_true_iff, !andb_false_iff,
    !Z.ltb_lt, !Z.eqb_eq, !Z.gtb_ltb, !Z.ltb_ge, !Z.eqb_neq.
  lia.
Qed.

(** X9. With a supplied range that passed validation and whose bounds are
    not both the zero time, every point returned carries a date that parses,
    lies within the bounds and is not after the current time. *)
Theorem filterData_not_future (now : time.Time) (startDate endDate : string)
  (start end_ : time.Time) (data : list Item.t) (p : DataPoint.t) :
  startDate <> "" ->
  validateAndParseDates now startDate endDate = ok (start, end_) ->
  time.IsZero start && time.IsZero end_ = false ->
  In p (filterData data start end_) ->
  exists date,
    time.Parse time.layout_02_01_2006 (DataPoint.Date p) = Some date
    /\ within start end_ date = true
    /\ time.After date now = false.
Proof.
  intros Hs Hdates Hz Hin.
  destruct (validateAndParseDates_range _ _ _ _ _ Hs Hdates) as (_ & _ & Hnow & _).
  rewrite (filterData_range _ _ _ Hz), in_map_iff in Hin.
  destruct Hin as (item & <- & Hin). apply filter_In in Hin as [_ Hinside].
  unfold inside in Hinside. simpl.
  destruct (time.Parse time.layout_02_01_2006 (Item.Date item)) as [date|]; [|discriminate].
  exists date. repeat split; try assumption.
  unfold within in Hinside. apply andb_true_iff in Hinside as [_ Hle].
  exact (After_trans_le _ _ _ Hle Hnow).
Qed.

Lemma filterData_not_future_witness :
  exists date,
    time.Parse time.layout_02_01_2006 "15-01-2023" = Some date
    /\ within (time.Date 2023 1 1) (time.Date 2023 1 31) date = true
    /\ time.After date noon = false.
Proof.
  refine (filterData_not_future noon "01-01-2023" "31-01-2023"
            (time.Date 2023 1 1) (time.Date 2023 1 31) series
            (DataPoint.mk "15-01-2023" "100.25") _ _ _ _); try evaluate.
  vm_compute. left. reflexivity.
Defined.

(** X10. When both dates of the query parse and neither is the zero time,
    the period of the response is the two dates as they were given, joined
    by " to ": formatting undoes parsing. *)
Theorem createSuccessResponse_echo (meta : Meta.t) (data : list DataPoint.t)
  (startDate endDate : string) (start end_ : time.Time) :
  time.Parse time.layout_02_01_2006 startDate = Some start ->
  time.Parse time.layout_02_01_2006 endDate = Some end_ ->
  time.IsZero start = false -> time.IsZero end_ = false ->
  createSuccessResponse meta data start end_
  = Response.mk meta (startDate ++ " to " ++ endDate) data.
Proof.
  intros Pstart Pend Zs Ze.
  rewrite (createSuccessResponse_period _ _ _ _ Zs Ze).
  now rewrite (Format_Parse _ _ Pstart), (Format_Parse _ _ Pend).
Qed.

Lemma createSuccessResponse_echo_witness :
  createSuccessResponse hdfc [] (time.Date 2024 2 29) (time.Date 2024 12 31)
  = Response.mk hdfc ("29-02-2024" ++ " to " ++ "31-12-2024") [].
Proof.
  apply (createSuccessResponse_echo hdfc [] "29-02-2024" "31-12-2024"); evaluate.
Defined.

(** X11. The encoded response has a period member exactly when neither
    bound is the zero time; metadata and data are passed on unchanged either
    way. *)
Theorem createSuccessResponse_period_key (meta : Meta.t) (data : list DataPoint.t)
  (start end_ : time.Time) :
  let response := createSuccessResponse meta data start end_ in
  (In "period" (json.keys (Response.toJSON response))
   <-> time.IsZero start = false /\ time.IsZero end_ = false)
  /\ Response.Meta response = meta
  /\ Response.Data response = data.
Proof.
  cbv zeta. rewrite toJSON_period. unfold createSuccessResponse.
  destruct (time.IsZero start), (time.IsZero end_); cbn [negb andb]; simpl;
    repeat split; try congruence; try (intros [? ?]; discriminate).
  intros _.
  destruct (time.Format start time.layout_02_01_2006); discriminate.
Qed.

(** X12. What [validateAndParseDates] can return: either no range, for two
    empty dates; or two dates that parse, with the start not after the end
    and the end not after the current time; or one of five fixed messages. *)
Theorem validateAndParseDates_outcome (now : time.Time) (startDate endDate : string) :
  match validateAndParseDates now startDate endDate with
  | ok (start, end_) =>
    (startDate = "" /\ endDate = "" /\ start = time.zero /\ end_ = time.zero)
    \/ (time.Parse time.layout_02_01_2006 startDate = Some start
        /\ time.Parse time.layout_02_01_2006 endDate = Some end_
        /\ time.After start end_ = false
        /\ time.After end_ now = false)
  | err message =>
    In message
      ["invalid start date format. use dd-mm-yyyy";
       "invalid end date format. use dd-mm-yyyy";
       "end date cannot be in the future";
       "start date cannot be after end date";
       "both start and end dates are required in the format dd-mm-yyyy"]
  end.
Proof.
  unfold validateAndParseDates, parseDates.
  destruct (String.eqb_spec startDate "") as [->|Hs];
    destruct (String.eqb_spec endDate "") as [->|He]; cbn [negb andb].
  - left. repeat split.
  - simpl. tauto.
  - simpl. tauto.
  - destruct (time.Parse time.layout_02_01_2006 startDate) as [start|]; [|simpl; tauto].
    destruct (time.Parse time.layout_02_01_2006 endDate) as [end_|]; [|simpl; tauto].
    destruct (time.After end_ now) eqn:Hfuture; [simpl; tauto|].
    destruct (time.After start end_) eqn:Horder; [simpl; tauto|].
    right. repeat split; assumption.
Qed.

Lemma After_mono (e now later : time.Time) :
  time.After e now = false -> time.Before later now = false ->
  time.After e later = false.
Proof.
  destruct e as [es en], now as [ns nn], later as [ls ln].
  unfold time.Before, time.After; simpl.
  rewrite !orb_false_iff, !andb_false_iff, !Z.gtb_ltb, !Z.ltb_ge, !Z.eqb_neq.
  lia.
Qed.

(** X13. Validation does not expire: dates that pass at some time pass,
    with the same result, at every time that is not earlier. *)
Theorem validateAndParseDates_later (now later : time.Time) (startDate endDate : string)
  (range : time.Time * time.Time) :
  validateAndParseDates now startDate endDate = ok range ->
  time.Before later now = false ->
  validateAndParseDates later startDate endDate = ok range.
Proof.
  unfold validateAndParseDates. intros H Hlater.
  destruct (negb (String.eqb startDate "") && negb (String.eqb endDate "")); [|exact H].
  destruct (parseDates startDate endDate) as [[start end_]|msg]; [|exact H].
  destruct (time.After end_ now) eqn:Hnow; [discriminate|].
  now rewrite (After_mono _ _ _ Hnow Hlater).
Qed.

Lemma validateAndParseDates_later_witness :
  validateAndParseDates (time.Date 2030 1 1) "01-01-2023" "31-01-2023"
  = ok (time.Date 2023 1 1, time.Date 2023 1 31).
Proof.
  apply (validateAndParseDates_later noon (time.Date 2030 1 1)); evaluate.
Defined.

(** X14. A request without an Authorization header, or with one that has
    no value, is answered 401 Unauthorized whatever CRON_SECRET holds, set
    or not: the expected header always starts with "Bearer ". *)
Theorem Cron_missing_header (wd : World) (r : http.Request) :
  http.Header r !! "Authorization" = None \/ http.Header r !! "Authorization" = Some [] ->
  http.status (Cron wd http.newWriter r) = Some 401
  /\ http.body (Cron wd http.newWriter r) = "Unauthorized" ++ newline.
Proof.
  intros Hmissing.
  assert (Hget : http.Header_Get (http.Header r) "Authorization" = "")
    by (unfold http.Header_Get; destruct Hmissing as [-> | ->]; reflexivity).
  rewrite (Cron_unauthorized wd http.newWriter r).
  - split; reflexivity.
  - rewrite Hget. discriminate.
Qed.

Lemma Cron_missing_header_witness :
  http.status (Cron sampleWorld http.newWriter (GET [])) = Some 401
  /\ http.body (Cron sampleWorld http.newWriter (GET [])) = "Unauthorized" ++ newline.
Proof.
  apply (Cron_missing_header sampleWorld (GET [])). left. vm_compute. reflexivity.
Defined.

(** X15. When no range is given and the upstream series is empty, or none
    of its dates parses, the reply is still 200, and its data member is null
    rather than an empty array: the slice [filterData] returns was never
    appended to. *)
Theorem Handler_no_points (wd : World) (r : http.Request) (fund : Fund.t) :
  let mutualFundID := url.Values_Get (http.Query r) "mutualFundID" in
  mutualFundID <> "" -> isValidInteger mutualFundID = true ->
  url.Values_Get (http.Query r) "start" = "" -> url.Values_Get (http.Query r) "end" = "" ->
  Remote wd ("https://api.mfapi.in/mf/" ++ mutualFundID) = Decoded fund ->
  Fund.Meta fund <> Meta.zero ->
  (forall item, In item (Fund.Data fund) ->
                time.Parse time.layout_02_01_2006 (Item.Date item) = None) ->
  observe (Handler wd http.newWriter r)
  = (Some 200,
     json.render (json.Obj [("meta", Meta.toJSON (Fund.Meta fund)); ("data", json.Null)]),
     ["https://api.mfapi.in/mf/" ++ mutualFundID]).
Proof.
  cbv zeta. intros Hid Hint Hs He Hfetch Hmeta Hnone.
  assert (Hdates : validateAndParseDates (Now wd)
                     (url.Values_Get (http.Query r) "start")
                     (url.Values_Get (http.Query r) "end")
                   = ok (time.zero, time.zero))
    by now rewrite Hs, He.
  rewrite (Handler_success wd http.newWriter r Hid Hint _ _ Hdates fund Hfetch Hmeta).
  rewrite filterData_no_range.
  assert (Hempty : List.filter parses (Fund.Data fund) = []).
  { induction (Fund.Data fund) as [|item rest IH]; [reflexivity|]. simpl.
    unfold parses at 1. rewrite (Hnone item) by (left; reflexivity).
    apply IH. intros i Hi. apply Hnone. now right. }
  rewrite Hempty. reflexivity.
Qed.

Lemma Handler_no_points_witness :
  observe (Handler staleWorld http.newWriter fundSeven)
  = (Some 200,
     json.render (json.Obj [("meta", Meta.toJSON hdfc); ("data", json.Null)]),
     ["https://api.mfapi.in/mf/7"]).
Proof.
  refine (Handler_no_points staleWorld fundSeven staleFund _ _ _ _ _ _ _); try evaluate.
  intros item [<-|[]]. vm_compute. reflexivity.
Defined.

Lemma Atoi_sign (c : ascii) (r : string) :
  strconv.Atoi (String c r)
  = if Ascii.eqb c "-" then atoiDigits true r
    else if Ascii.eqb c "+" then atoiDigits false r
    else atoiDigits false (String c r).
Proof.
  destruct c as [[] [] [] [] [] [] [] []]; reflexivity.
Qed.

Lemma isDigit_not_sign (c : ascii) :
  isDigit c = true -> Ascii.eqb c "-" = false /\ Ascii.eqb c "+" = false.
Proof.
  intros H. split; apply Ascii.eqb_neq; intros ->; vm_compute in H; discriminate H.
Qed.

Lemma digitsVal_bound (s : string) :
  allDigits s = true ->
  forall acc, 0 <= acc ->
    acc * 10 ^ Z.of_nat (String.length s) <= digitsVal acc s
    < (acc + 1) * 10 ^ Z.of_nat (String.length s).
Proof.
  induction s as [|c s IH]; intros Hall acc Hacc.
  - simpl. lia.
  - simpl in Hall. apply andb_true_iff in Hall as [Hc%isDigit_range Hs].
    cbn [digitsVal String.length].
    specialize (IH Hs (acc * 10 + digitVal c) ltac:(lia)).
    rewrite Nat2Z.inj_succ, Z.pow_succ_r by lia.
    assert (0 < 10 ^ Z.of_nat (String.length s)) by (apply Z.pow_pos_nonneg; lia).
    nia.
Qed.

Lemma atoiDigits_short (neg : bool) (digits : string) :
  digits <> "" -> allDigits digits = true -> (String.length digits <= 18)%nat ->
  exists v, atoiDigits neg digits = Some v.
Proof.
  intros Hne Hall Hlen.
  assert (Hn : 0 <= digitsVal 0 digits < 1000000000000000000).
  { destruct (digitsVal_bound digits Hall 0 ltac:(lia)) as [Hlo Hhi].
    rewrite Z.mul_0_l in Hlo. rewrite Z.add_0_l, Z.mul_1_l in Hhi.
    split; [exact Hlo|]. eapply Z.lt_le_trans; [exact Hhi|].
    change 1000000000000000000 with (10 ^ 18). apply Z.pow_le_mono_r; lia. }
  unfold atoiDigits. destruct digits as [|c r]; [contradiction|].
  rewrite Hall. cbv zeta.
  set (n := digitsVal 0 (String c r)) in *.
  assert (Hrange : forall v, - 1000000000000000000 < v < 1000000000000000000 ->
                     (strconv.minInt <=? v) && (v <=? strconv.maxInt) = true).
  { intros v Hv. unfold strconv.minInt, strconv.maxInt.
    change (2 ^ 63) with 9223372036854775808.
    apply andb_true_iff. split; apply Z.leb_le; lia. }
  destruct neg; rewrite Hrange by lia; eauto.
Qed.

(** X16. A mutualFundID made of one to eighteen decimal digits, with or
    without a sign in front, is accepted as an integer. *)
Theorem isValidInteger_digits (digits : string) :
  digits <> "" -> allDigits digits = true -> (String.length digits <= 18)%nat ->
  isValidInteger digits = true
  /\ isValidInteger (String "+" digits) = true
  /\ isValidInteger (String "-" digits) = true.
Proof.
  intros Hne Hall Hlen. unfold isValidInteger.
  destruct (atoiDigits_short false digits Hne Hall Hlen) as [v Hv].
  destruct (atoiDigits_short true digits Hne Hall Hlen) as [v' Hv'].
  repeat split.
  - destruct digits as [|c r]; [contradiction|].
    rewrite Atoi_sign.
    simpl in Hall. apply andb_true_iff in Hall as [Hc _].
    destruct (isDigit_not_sign c Hc) as [-> ->]. now rewrite Hv.
  - rewrite Atoi_sign. cbn. now rewrite Hv.
  - rewrite Atoi_sign. cbn. now rewrite Hv'.
Qed.

Lemma isValidInteger_digits_witness :
  isValidInteger "100027" = true
  /\ isValidInteger (String "+" "100027") = true
  /\ isValidInteger (String "-" "100027") = true.
Proof.
  apply (isValidInteger_digits "100027"); [evaluate|evaluate|simpl; lia].
Defined.

(** X17. A mutualFundID that is accepted as an integer is a non-empty run
    of decimal digits, possibly after one sign: blanks, letters, a decimal
    point or a sign on its own are refused. *)
Theorem isValidInteger_shape (value : string) :
  isValidInteger value = true ->
  exists digits,
    (value = digits \/ value = String "+" digits \/ value = String "-" digits)
    /\ digits <> "" /\ allDigits digits = true.
Proof.
  unfold isValidInteger.
  assert (Hbody : forall neg digits, atoiDigits neg digits <> None ->
                    digits <> "" /\ allDigits digits = true).
  { intros neg digits H. unfold atoiDigits in H.
    destruct digits as [|c r]; [contradiction|].
    split; [discriminate|]. now destruct (allDigits (String c r)). }
  destruct value as [|c r]; [discriminate|].
  rewrite Atoi_sign.
  destruct (Ascii.eqb_spec c "-") as [->|_];
    [|destruct (Ascii.eqb_spec c "+") as [->|_]].
  - destruct (atoiDigits true r) eqn:E; [|discriminate]. intros _.
    exists r. split; [now right; right|]. apply (Hbody true). congruence.
  - destruct (atoiDigits false r) eqn:E; [|discriminate]. intros _.
    exists r. split; [now right; left|]. apply (Hbody false). congruence.
  - destruct (atoiDigits false (String c r)) eqn:E; [|discriminate]. intros _.
    exists (String c r). split; [now left|]. apply (Hbody false). congruence.
Qed.

Lemma isValidInteger_shape_witness :
  exists digits,
    ("-42" = digits \/ "-42" = String "+" digits \/ "-42" = String "-" digits)
    /\ digits <> "" /\ allDigits digits = true.
Proof.
  apply (isValidInteger_shape "-42"). vm_compute. reflexivity.
Defined.

(** The sample request for January 2023, through [Handler_dated]: the two
    dates come back in the period and only the point of 15 January is
    returned. *)
Lemma Handler_dated_witness :
  observe (Handler sampleWorld http.newWriter january)
  = (Some 200,
     Response.Marshal
       (Response.mk hdfc ("01-01-2023" ++ " to " ++ "31-01-2023")
          [DataPoint.mk "15-01-2023" "100.25"]),
     ["https://api.mfapi.in/mf/100027"]).
Proof.
  refine (eq_trans
            (Handler_dated sampleWorld january (time.Date 2023 1 1) (time.Date 2023 1 31)
               (Fund.mk hdfc series) _ _ _ _ _ _ _ _) _); evaluate.
Defined.
